(** * StockFlow: the low-stock alert endpoint and the product-creation endpoint

    A shallow embedding of [Part-3.py] (GET /api/companies/<id>/alerts/low-stock)
    and [Part-1.py] (POST /api/products), with the properties of their written
    specification stated over it.

    Conventions of the embedding.
    - A table is the list of its rows; a nullable column is an [option].
    - Python integers are [Z].  Python floats are IEEE 754 binary64 values,
      modelled by the Standard Library's [spec_float] with [prec = 53] and
      [emax = 1024]; every float operation below is the correctly rounded one
      ([SFdiv], [binary_normalize]).
    - A Python exception that leaves the handler is a [Raise]; Flask answers
      it with status 500.
    - Timestamps are integers (microseconds); the clock is an argument. *)

From Stdlib Require Import ZArith Lia QArith Qround.
From Stdlib Require Import Floats.SpecFloat.
From stdpp Require Import base option list strings gmap.

Set Warnings "-register-all".
Local Open Scope Z_scope.

(** ** Exceptions *)

Inductive exn : Type :=
  | TypeError
  | ValueError
  | OverflowError
  | ZeroDivisionError
  | InvalidOperation     (* decimal.InvalidOperation *)
  | StatementError       (* the database driver cannot bind a parameter *)
  | IntegrityError       (* a NOT NULL or UNIQUE constraint fails *)
  | KeyError
  | OperationalError.    (* SQLite reports "integer overflow" *)

Inductive result (A : Type) : Type :=
  | Ok (a : A)
  | Raise (e : exn).
Arguments Ok {A} a.
Arguments Raise {A} e.

Definition bind {A B : Type} (r : result A) (k : A -> result B) : result B :=
  match r with
  | Ok a => k a
  | Raise e => Raise e
  end.

Notation "x <- r ;; k" := (bind r (fun x => k))
  (at level 100, r at next level, right associativity, only parsing).

(** ** Python's float arithmetic, as far as the handler uses it *)

Module PyFloat.

Definition prec : Z := 53.
Definition emax : Z := 1024.

(** An integer as an exact (not yet rounded) operand. *)
Definition exact (z : Z) : spec_float :=
    match z with
    | Z0 => S754_zero false
    | Zpos p => S754_finite false p 0
    | Zneg p => S754_finite true p 0
    end.

(** [float(z)], the conversion [int / float] applies to its left operand:
      round to nearest even, [OverflowError] past the largest double. *)
Definition of_int (z : Z) : result spec_float :=
    match binary_normalize prec emax z 0 false with
    | S754_infinity _ => Raise OverflowError
    | f => Ok f
    end.

(** [a / b] on two integers: the correctly rounded quotient. *)
Definition int_truediv (a b : Z) : result spec_float :=
    if decide (b = 0) then Raise ZeroDivisionError
    else match SFdiv prec emax (exact a) (exact b) with
         | S754_infinity _ => Raise OverflowError
         | f => Ok f
         end.

(** [x / y] on two floats. *)
Definition truediv (x y : spec_float) : result spec_float :=
    match y with
    | S754_zero _ => Raise ZeroDivisionError
    | _ => Ok (SFdiv prec emax x y)
    end.

(** [int(x)]: truncation toward zero. *)
Definition to_int (x : spec_float) : result Z :=
    match x with
    | S754_nan => Raise ValueError
    | S754_infinity _ => Raise OverflowError
    | S754_zero _ => Ok 0
    | S754_finite s m e =>
        let a := if decide (0 <= e) then Zpos m * 2 ^ e else Zpos m / 2 ^ (- e) in
        Ok (if s then - a else a)
    end.

End PyFloat.

(** ** Part-3.py: the low-stock alert endpoint *)

Module Part3.

(** *** Database models

    A NULL cell is [None].  Keys and integer cells are the integers SQLite
    has stored. *)

Module Company.
Record t := { id : Z; name : option string }.
End Company.

Module Warehouse.
Record t := { id : Z; name : option string; company_id : option Z }.
End Warehouse.

Module Product.
Record t := {
      id : Z;
      name : option string;
      sku : option string;
      product_type : option string
    }.
End Product.

Module Inventory.
Record t := {
      id : Z;
      product_id : option Z;
      warehouse_id : option Z;
      quantity : option Z
    }.
End Inventory.

Module Supplier.
Record t := { id : Z; name : option string; contact_email : option string }.
End Supplier.

Module ProductSupplier.
Record t := { product_id : Z; supplier_id : Z }.
End ProductSupplier.

Module InventoryMovement.
Record t := {
      id : Z;
      product_id : option Z;
      warehouse_id : option Z;
      quantity_change : option Z;
      reason : option string;
      created_at : option Z
    }.
End InventoryMovement.

Record database := {
    companies : list Company.t;
    warehouses : list Warehouse.t;
    products : list Product.t;
    inventory : list Inventory.t;
    suppliers : list Supplier.t;
    product_suppliers : list ProductSupplier.t;
    movements : list InventoryMovement.t
  }.

(** *** The response *)

Record supplier_info := {
    s_id : Z;
    s_name : option string;
    s_contact_email : option string
  }.

Record alert := {
    a_product_id : Z;
    a_product_name : option string;
    a_sku : option string;
    a_warehouse_id : Z;
    a_warehouse_name : option string;
    a_current_stock : Z;
    a_threshold : Z;
    a_days_until_stockout : Z;
    a_supplier : supplier_info
  }.

Record body := { alerts : list alert; total_alerts : nat }.

Inductive response : Type :=
    | Json (status : Z) (b : body)
    | InternalServerError (e : exn).

(** *** Threshold lookup *)

Definition THRESHOLDS : gmap string Z :=
    <["simple" := 20]> (<["bundle" := 10]> ∅).

(** [THRESHOLDS.get(product_type, 20)]; a NULL type is the key [None],
      which the dictionary does not hold. *)
Definition threshold_for (product_type : option string) : Z :=
    match product_type with
    | Some k => default 20 (THRESHOLDS !! k)
    | None => 20
    end.

(** *** The clock *)

Definition microseconds_per_day : Z := 86400 * 1000000.

Definition thirty_days_ago (utcnow : Z) : Z := utcnow - 30 * microseconds_per_day.

(** *** The queries *)

Definition row : Type := Inventory.t * Product.t * Warehouse.t * Supplier.t.

(** The rows of the joined query of the handler.  SQL fixes no order of
    the rows; they are listed here as nested loops in join order, and the
    statements below are about the rows as a collection.  A NULL foreign
    key matches no row. *)
Definition results (db : database) (company_id : Z) : list row :=
  filter (λ r : row, Warehouse.company_id (r.1.2) = Some company_id)
    (inv ← inventory db;
     product ← filter (λ p, Inventory.product_id inv = Some (Product.id p)) (products db);
     warehouse ← filter (λ w, Inventory.warehouse_id inv = Some (Warehouse.id w)) (warehouses db);
     ps ← filter (λ ps, Product.id product = ProductSupplier.product_id ps) (product_suppliers db);
     supplier ← filter (λ s, Supplier.id s = ProductSupplier.supplier_id ps) (suppliers db);
     [(inv, product, warehouse, supplier)]).

(** [created_at >= thirty_days_ago]; NULL compares to nothing. *)
Definition at_or_after (since : Z) (created_at : option Z) : bool :=
  match created_at with
  | Some t => bool_decide (since <= t)
  | None => false
  end.

Definition is_recent_sale (product_id warehouse_id since : Z) (m : InventoryMovement.t) : bool :=
  bool_decide (InventoryMovement.product_id m = Some product_id)
  && bool_decide (InventoryMovement.warehouse_id m = Some warehouse_id)
  && bool_decide (InventoryMovement.reason m = Some "sale"%string)
  && at_or_after since (InventoryMovement.created_at m).

(** The non-NULL quantity changes of the recent sales of a product at a
    warehouse, in table order. *)
Definition recent_sales (db : database) (product_id warehouse_id since : Z) : list Z :=
  omap InventoryMovement.quantity_change
       (filter (λ m, is_recent_sale product_id warehouse_id since m = true)
               (movements db)).

(** The sales total of a product at a warehouse: the absolute value of the
    sum of the quantity changes of its recent sales, 0 when there is none.
    It is what the scalar query of the handler returns, NULL read as 0 the
    way the test [not sales or sales == 0] reads it, whenever the query
    returns. *)
Definition sales_total (db : database) (product_id warehouse_id since : Z) : Z :=
  Z.abs (foldr Z.add 0 (recent_sales db product_id warehouse_id since)).

(** What a SQLite integer, and a bound integer parameter, can hold. *)
Definition fits_int64 (z : Z) : bool := bool_decide (- 2 ^ 63 <= z < 2 ^ 63).

(** SQLite's [SUM] over integers: the running sum from [acc], failing with
    "integer overflow" as soon as it leaves 64 bits. *)
Fixpoint sum_int64 (acc : Z) (vs : list Z) : result Z :=
  match vs with
  | [] => Ok acc
  | v :: vs =>
      if fits_int64 (acc + v) then sum_int64 (acc + v) vs
      else Raise OperationalError
  end.

(** SQLite's [abs]: "integer overflow" on the least 64-bit integer. *)
Definition abs_int64 (z : Z) : result Z :=
  if fits_int64 (Z.abs z) then Ok (Z.abs z) else Raise OperationalError.

(** The scalar query [abs(sum(quantity_change))] over the recent sales of a
    product at a warehouse, as SQLite runs it; [Ok None] is SQL's NULL, the
    sum over no non-NULL value. *)
Definition sales_query (db : database) (product_id warehouse_id since : Z)
  : result (option Z) :=
  match recent_sales db product_id warehouse_id since with
  | [] => Ok None
  | vs => s <- sum_int64 0 vs ;; a <- abs_int64 s ;; Ok (Some a)
  end.

(** The estimate as the specification words it: the integer floor of
    [current_stock / (sales_total / 30)], over the rationals. *)
Definition exact_days (current_stock sales_total : Z) : Z :=
  Qfloor (inject_Z current_stock / (inject_Z sales_total / inject_Z 30))%Q.

(** *** The handler *)

(** The body of the [for] loop: [Ok None] is a row that appends nothing. *)
Definition loop_body (db : database) (since : Z) (r : row) : result (option alert) :=
  let '(inv, product, warehouse, supplier) := r in
  let threshold := threshold_for (Product.product_type product) in
  sales <- sales_query db (Product.id product) (Warehouse.id warehouse) since ;;
  match sales with
  | None => Ok None
  | Some 0 => Ok None
  | Some sales =>
      avg_daily_sales <- PyFloat.int_truediv sales 30 ;;
      match Inventory.quantity inv with
      | None => Raise TypeError
      | Some quantity =>
          if bool_decide (quantity <= threshold) then
            q <- PyFloat.of_int quantity ;;
            d <- PyFloat.truediv q avg_daily_sales ;;
            days_until_stockout <- PyFloat.to_int d ;;
            Ok (Some {|
              a_product_id := Product.id product;
              a_product_name := Product.name product;
              a_sku := Product.sku product;
              a_warehouse_id := Warehouse.id warehouse;
              a_warehouse_name := Warehouse.name warehouse;
              a_current_stock := quantity;
              a_threshold := threshold;
              a_days_until_stockout := days_until_stockout;
              a_supplier := {|
                s_id := Supplier.id supplier;
                s_name := Supplier.name supplier;
                s_contact_email := Supplier.contact_email supplier
              |}
            |})
          else Ok None
      end
  end.

(** The alert a row contributes to the response, if it contributes one. *)
Definition emitted (db : database) (since : Z) (r : row) : option alert :=
  match loop_body db since r with
  | Ok o => o
  | Raise _ => None
  end.

Definition supplier_entry (s : Supplier.t) : supplier_info :=
  {| s_id := Supplier.id s; s_name := Supplier.name s;
     s_contact_email := Supplier.contact_email s |}.

Fixpoint loop (db : database) (since : Z) (rows : list row) (alerts : list alert)
  : result (list alert) :=
  match rows with
  | [] => Ok alerts
  | r :: rows =>
      o <- loop_body db since r ;;
      match o with
      | Some a => loop db since rows (alerts ++ [a])
      | None => loop db since rows alerts
      end
  end.

(** The joined query as it runs: [company_id] is bound as a statement
    parameter, which the driver refuses with [OverflowError] when it does
    not fit in 64 bits. *)
Definition run_query (db : database) (company_id : Z) : result (list row) :=
  if fits_int64 company_id then Ok (results db company_id)
  else Raise OverflowError.

Definition low_stock_alerts (db : database) (utcnow : Z) (company_id : Z) : response :=
  match rows <- run_query db company_id ;;
        loop db (thirty_days_ago utcnow) rows [] with
  | Ok alerts => Json 200 {| alerts := alerts; total_alerts := length alerts |}
  | Raise e => InternalServerError e
  end.

End Part3.


(** ** Part-1.py: the product-creation endpoint *)

Module Part1.

(** A JSON value as [request.get_json()] returns it. *)
Inductive json : Type :=
  | JNull
  | JBool (b : bool)
  | JInt (z : Z)
  | JFloat (f : spec_float)
  | JString (s : string)
  | JArray (l : list json)
  | JObject (l : list (string * json)).

Definition is_null (v : json) : bool :=
  match v with
  | JNull => true
  | _ => false
  end.

(** A [decimal.Decimal]. *)
Inductive decimal : Type :=
  | DFinite (sign : bool) (coefficient : N) (exponent : Z)
  | DInfinity (sign : bool)
  | DNaN.

(** *** Database models

    A cell holds the Python value the handler passed for it: SQLite types
    values, not columns. *)

Module Product.
Record t := { id : Z; name : json; sku : json; price : decimal }.
End Product.

Module Inventory.
Record t := { id : Z; product_id : Z; warehouse_id : json; quantity : json }.
End Inventory.

Record storage := {
  products : list Product.t;
  inventories : list Inventory.t
}.

(** The key SQLite gives a new row of a table whose keys are [ids]. *)
Definition next_id (ids : list Z) : Z :=
  match ids with
  | [] => 1
  | i :: ids => foldr Z.max i ids + 1
  end.

(** *** The response *)

Inductive body : Type :=
  | Error (msg : string)
  | ErrorOf (e : exn)                                 (* {"error": str(e)} *)
  | Created (message : string) (product_id : Z)
  | Unhandled (e : exn).                              (* Flask's own answer *)

Record response := { status : Z; payload : body }.

Definition required_fields : list string := ["name"; "sku"; "price"; "warehouse_id"]%string.

Section Handler.

(** What the handler takes from its libraries:
    [Decimal_str v] is [Decimal(str(v))], [None] when it raises;
    [bindable v] tells whether the database driver accepts [v] as a
    statement parameter; [sql_eq c v] is the SQL comparison [column = :v] of
    a stored cell [c] with a bound, non-NULL parameter [v]. *)
Context (Decimal_str : json -> option decimal)
        (bindable : json -> bool)
        (sql_eq : json -> json -> bool).

(** Python's [None] is always accepted: it is bound as NULL. *)
Definition accepts (v : json) : bool := is_null v || bindable v.

(** [Product.query.filter_by(sku=v).first()]; a [None] argument is rendered
    [sku IS NULL]. *)
Definition first_by_sku (st : storage) (v : json) : result (option Product.t) :=
  if is_null v then Ok (List.find (λ p, is_null (Product.sku p)) (products st))
  else if bindable v then Ok (List.find (λ p, sql_eq (Product.sku p) v) (products st))
  else Raise StatementError.

(** How SQLite stores a price: a NaN becomes NULL. *)
Definition price_is_null (price : decimal) : bool :=
  match price with
  | DNaN => true
  | _ => false
  end.

(** [db.session.add(product); db.session.flush()]: the INSERT, with the
    constraints of the [Product] model; yields the new key. *)
Definition flush_product (st : storage) (name sku : json) (price : decimal)
  : result (Z * storage) :=
  if negb (accepts name && accepts sku) then Raise StatementError
  else if is_null name || is_null sku || price_is_null price then Raise IntegrityError
  else if existsb (λ p, sql_eq (Product.sku p) sku) (products st) then Raise IntegrityError
  else
    let id := next_id (Product.id <$> products st) in
    Ok (id, {| products := products st ++
                 [{| Product.id := id; Product.name := name;
                     Product.sku := sku; Product.price := price |}];
               inventories := inventories st |}).

(** [db.session.add(inventory); db.session.commit()].  A [quantity] of
    [None] is left out of the INSERT, so the column default 0 applies. *)
Definition commit_inventory (st : storage) (product_id : Z) (warehouse_id quantity : json)
  : result storage :=
  let quantity := if is_null quantity then JInt 0 else quantity in
  if negb (accepts warehouse_id && accepts quantity) then Raise StatementError
  else if is_null warehouse_id then Raise IntegrityError
  else
    Ok {| products := products st;
          inventories := inventories st ++
            [{| Inventory.id := next_id (Inventory.id <$> inventories st);
                Inventory.product_id := product_id;
                Inventory.warehouse_id := warehouse_id;
                Inventory.quantity := quantity |}] |}.

(** The [try] block; the required keys are present when it runs. *)
Definition try_block (st : storage) (name sku price warehouse_id : json)
           (data : gmap string json) : result (Z * storage) :=
  price <- match Decimal_str price with
           | Some d => Ok d
           | None => Raise InvalidOperation
           end ;;
  flushed <- flush_product st name sku price ;;
  st' <- commit_inventory flushed.2 flushed.1 warehouse_id
           (default (JInt 0) (data !! "initial_quantity"%string)) ;;
  Ok (flushed.1, st').

Definition create_product (st : storage) (data : gmap string json) : response * storage :=
  match List.find (λ field, bool_decide (data !! field = None)) required_fields with
  | Some field =>
      ({| status := 400; payload := Error (field ++ " is required") |}, st)
  | None =>
      match data !! "name"%string, data !! "sku"%string,
            data !! "price"%string, data !! "warehouse_id"%string with
      | Some name, Some sku, Some price, Some warehouse_id =>
          match first_by_sku st sku with
          | Raise e => ({| status := 500; payload := Unhandled e |}, st)
          | Ok (Some _) =>
              ({| status := 409; payload := Error "SKU already exists" |}, st)
          | Ok None =>
              match try_block st name sku price warehouse_id data with
              | Ok (product_id, st') =>
                  ({| status := 201;
                      payload := Created "Product created successfully" product_id |}, st')
              | Raise e =>
                  (* db.session.rollback() *)
                  ({| status := 500; payload := ErrorOf e |}, st)
              end
          end
      | _, _, _, _ =>
          (* a KeyError; not reached, the loop above has returned *)
          ({| status := 500; payload := Unhandled KeyError |}, st)
      end
  end.

End Handler.

(** The foreign key [Inventory.product_id -> product.id]. *)
Definition foreign_key_ok (st : storage) : Prop :=
  ∀ i, i ∈ inventories st → ∃ p, p ∈ products st ∧ Product.id p = Inventory.product_id i.

End Part1.

(** ** Sample data *)

Module Samples.
Import Part3.

Definition utcnow : Z := 1762185600000000.
Definition yesterday : Z := utcnow - microseconds_per_day.

Definition main_warehouse : Warehouse.t :=
  {| Warehouse.id := 1; Warehouse.name := Some "Main"%string; Warehouse.company_id := Some 1 |}.

Definition widget : Product.t :=
  {| Product.id := 1; Product.name := Some "Widget"%string;
     Product.sku := Some "W-1"%string; Product.product_type := Some "simple"%string |}.

Definition widget_stock (quantity : Z) : Inventory.t :=
  {| Inventory.id := 1; Inventory.product_id := Some 1;
     Inventory.warehouse_id := Some 1; Inventory.quantity := Some quantity |}.

Definition acme : Supplier.t :=
  {| Supplier.id := 1; Supplier.name := Some "Acme"%string;
     Supplier.contact_email := Some "orders@acme.example"%string |}.

Definition bolt : Supplier.t :=
  {| Supplier.id := 2; Supplier.name := Some "Bolt"%string;
     Supplier.contact_email := Some "sales@bolt.example"%string |}.

Definition sale (quantity_change : Z) : InventoryMovement.t :=
  {| InventoryMovement.id := 1; InventoryMovement.product_id := Some 1;
     InventoryMovement.warehouse_id := Some 1;
     InventoryMovement.quantity_change := Some quantity_change;
     InventoryMovement.reason := Some "sale"%string;
     InventoryMovement.created_at := Some yesterday |}.

(** One company, one warehouse, one "simple" product with [quantity] units
    on hand, the given supplier links and ledger. *)
Definition shop (quantity : Z) (links : list ProductSupplier.t)
           (ledger : list InventoryMovement.t) : database :=
  {| companies := [{| Company.id := 1; Company.name := Some "Shop"%string |}];
     warehouses := [main_warehouse];
     products := [widget];
     inventory := [widget_stock quantity];
     suppliers := [acme; bolt];
     product_suppliers := links;
     movements := ledger |}.

Definition link (supplier_id : Z) : ProductSupplier.t :=
  {| ProductSupplier.product_id := 1; ProductSupplier.supplier_id := supplier_id |}.

(** 15 units on hand, 60 sold yesterday, two suppliers. *)
Definition two_suppliers : database := shop 15 [link 1; link 2] [sale (-60)].

(** The same product with no supplier linked. *)
Definition no_supplier : database := shop 15 [] [sale (-60)].

(** The same product with an empty ledger. *)
Definition dormant : database := shop 15 [link 1] [].

(** 25 units on hand, above the threshold 20. *)
Definition well_stocked : database := shop 25 [link 1] [sale (-60)].

Definition gadget : Product.t :=
  {| Product.id := 2; Product.name := Some "Gadget"%string;
     Product.sku := Some "G-2"%string; Product.product_type := Some "bundle"%string |}.

(** The widget without a supplier next to a gadget that has one; both are
    low on stock and both sold yesterday. *)
Definition mixed : database :=
  {| companies := [{| Company.id := 1; Company.name := Some "Shop"%string |}];
     warehouses := [main_warehouse];
     products := [widget; gadget];
     inventory :=
       [widget_stock 15;
        {| Inventory.id := 2; Inventory.product_id := Some 2;
           Inventory.warehouse_id := Some 1; Inventory.quantity := Some 5 |}];
     suppliers := [acme; bolt];
     product_suppliers :=
       [{| ProductSupplier.product_id := 2; ProductSupplier.supplier_id := 1 |}];
     movements :=
       [sale (-60);
        {| InventoryMovement.id := 2; InventoryMovement.product_id := Some 2;
           InventoryMovement.warehouse_id := Some 1;
           InventoryMovement.quantity_change := Some (-30);
           InventoryMovement.reason := Some "sale"%string;
           InventoryMovement.created_at := Some yesterday |}] |}.

Definition gadget_alert : alert :=
  {| a_product_id := 2; a_product_name := Some "Gadget"%string; a_sku := Some "G-2"%string;
     a_warehouse_id := 1; a_warehouse_name := Some "Main"%string;
     a_current_stock := 5; a_threshold := 10; a_days_until_stockout := 5;
     a_supplier := supplier_entry acme |}.

Definition widget_alert (s : Supplier.t) : alert :=
  {| a_product_id := 1; a_product_name := Some "Widget"%string; a_sku := Some "W-1"%string;
     a_warehouse_id := 1; a_warehouse_name := Some "Main"%string;
     a_current_stock := 15; a_threshold := 20; a_days_until_stockout := 7;
     a_supplier := supplier_entry s |}.

(** Stand-ins for the library behaviour [Part1.create_product] is
    parameterised by: a [Decimal] that reads integers only, a driver that
    binds scalars, and a comparison of like scalars. *)
Definition Decimal_str (v : Part1.json) : option Part1.decimal :=
  match v with
  | Part1.JInt z => Some (Part1.DFinite (z <? 0) (Z.abs_N z) 0)
  | _ => None
  end.

Definition bindable (v : Part1.json) : bool :=
  match v with
  | Part1.JArray _ | Part1.JObject _ => false
  | _ => true
  end.

Definition sql_eq (c v : Part1.json) : bool :=
  match c, v with
  | Part1.JString a, Part1.JString b => bool_decide (a = b)
  | Part1.JInt a, Part1.JInt b => bool_decide (a = b)
  | _, _ => false
  end.

Definition create_product := Part1.create_product Decimal_str bindable sql_eq.

Definition empty_storage : Part1.storage :=
  {| Part1.products := []; Part1.inventories := [] |}.

(** A store that already holds the SKU "W-1". *)
Definition one_product : Part1.storage :=
  {| Part1.products :=
       [{| Part1.Product.id := 1; Part1.Product.name := Part1.JString "Widget";
           Part1.Product.sku := Part1.JString "W-1";
           Part1.Product.price := Part1.DFinite false 5 0 |}];
     Part1.inventories :=
       [{| Part1.Inventory.id := 1; Part1.Inventory.product_id := 1;
           Part1.Inventory.warehouse_id := Part1.JInt 1;
           Part1.Inventory.quantity := Part1.JInt 0 |}] |}.

(** A complete request without [initial_quantity]. *)
Definition new_gadget : gmap string Part1.json :=
  <["name"%string := Part1.JString "Gadget"]>
    (<["sku"%string := Part1.JString "G-2"]>
       (<["price"%string := Part1.JInt 12]>
          (<["warehouse_id"%string := Part1.JInt 1]> ∅))).

(** A complete request for the SKU the store already holds. *)
Definition widget_again : gmap string Part1.json :=
  <["sku"%string := Part1.JString "W-1"]> new_gadget.

(** The same request with its [name] left out. *)
Definition widget_again_unnamed : gmap string Part1.json :=
  delete "name"%string widget_again.

(** A request whose keys are all present and all null. *)
Definition all_null : gmap string Part1.json :=
  <["name"%string := Part1.JNull]>
    (<["sku"%string := Part1.JNull]>
       (<["price"%string := Part1.JNull]>
          (<["warehouse_id"%string := Part1.JNull]> ∅))).

End Samples.

(** ** Further definitions *)

Module PyFloatAux.

(** The three outcomes of the rounding step: zero, a finite float, or an
    overflow to infinity. *)
Definition rounded (s : bool) (m e : Z) : spec_float :=
  match m with
  | Z0 => S754_zero s
  | Zpos p => if e <=? 971 then S754_finite s p e else S754_infinity s
  | Zneg _ => S754_nan
  end.

End PyFloatAux.

Module Part3Aux.
Import Part3.

(** The alerts of a response; an error response carries none. *)
Definition response_alerts (r : response) : list alert :=
  match r with
  | Json _ b => alerts b
  | InternalServerError _ => []
  end.

(** The database after one more row is appended to the movement ledger. *)
Definition add_movement (m : InventoryMovement.t) (db : database) : database :=
  {| companies := companies db;
     warehouses := warehouses db;
     products := products db;
     inventory := inventory db;
     suppliers := suppliers db;
     product_suppliers := product_suppliers db;
     movements := movements db ++ [m] |}.

(** The sum of the absolute quantity changes of the whole ledger. *)
Definition ledger_volume (db : database) : Z :=
  foldr (λ m acc, Z.abs (default 0 (InventoryMovement.quantity_change m)) + acc) 0
        (movements db).

End Part3Aux.

Module MoreSamples.
Import Part3 Samples.

(** The widget with a NULL quantity. *)
Definition unknown_stock : database :=
  {| companies := companies two_suppliers;
     warehouses := warehouses two_suppliers;
     products := products two_suppliers;
     inventory :=
       [{| Inventory.id := 1; Inventory.product_id := Some 1;
           Inventory.warehouse_id := Some 1; Inventory.quantity := None |}];
     suppliers := suppliers two_suppliers;
     product_suppliers := [link 1];
     movements := movements two_suppliers |}.

Definition restock : InventoryMovement.t :=
  {| InventoryMovement.id := 9; InventoryMovement.product_id := Some 1;
     InventoryMovement.warehouse_id := Some 1;
     InventoryMovement.quantity_change := Some 500;
     InventoryMovement.reason := Some "restock"%string;
     InventoryMovement.created_at := Some yesterday |}.

(** A sale of the widget booked at another warehouse. *)
Definition sale_elsewhere : InventoryMovement.t :=
  {| InventoryMovement.id := 10; InventoryMovement.product_id := Some 1;
     InventoryMovement.warehouse_id := Some 2;
     InventoryMovement.quantity_change := Some (-900);
     InventoryMovement.reason := Some "sale"%string;
     InventoryMovement.created_at := Some yesterday |}.

(** A complete request for a third SKU. *)
Definition new_gizmo : gmap string Part1.json :=
  <["sku"%string := Part1.JString "Z-3"]> new_gadget.

End MoreSamples.

Module Part1Aux.
Import Part1.

(** The tables [db.create_all()] leaves in a new database file. *)
Definition empty : storage := {| products := []; inventories := [] |}.

(** The inventory rows of a product. *)
Definition rows_of (st : storage) (product_id : Z) : list Inventory.t :=
  filter (λ i, Inventory.product_id i = product_id) (inventories st).

(** What the alert endpoint relies on when it reads: product keys are
    distinct, every inventory row points at a stored product, and every
    product has exactly one inventory row. *)
Definition consistent (st : storage) : Prop :=
  NoDup (Product.id <$> products st) ∧
  foreign_key_ok st ∧
  Forall (λ p, length (rows_of st (Product.id p)) = 1%nat) (products st).

(** The quantity the handler stores for a request. *)
Definition stored_quantity (data : gmap string json) : json :=
  match data !! "initial_quantity"%string with
  | Some v => if is_null v then JInt 0 else v
  | None => JInt 0
  end.

Section Requests.
Context (Decimal_str : json -> option decimal)
        (bindable : json -> bool)
        (sql_eq : json -> json -> bool).

(** The storage after a sequence of requests, served one after the other. *)
Fixpoint serve (st : storage) (requests : list (gmap string json)) : storage :=
  match requests with
  | [] => st
  | data :: requests =>
      serve (create_product Decimal_str bindable sql_eq st data).2 requests
  end.

(** No stored SKU compares equal to one stored before it. *)
Definition distinct_skus (st : storage) : Prop :=
  ∀ (i j : nat) p q, (i < j)%nat →
    products st !! i = Some p → products st !! j = Some q →
    sql_eq (Product.sku p) (Product.sku q) = false.

End Requests.

End Part1Aux.

(** * Facts *)

Lemma bind_Ok {A B : Type} (r : result A) (k : A -> result B) (b : B) :
  bind r k = Ok b -> exists a, r = Ok a /\ k a = Ok b.
Proof. destruct r as [a|e]; simpl; [eauto | discriminate]. Qed.

(** ** Bounds on the rounded division *)

Module PyFloatFacts.
Import PyFloat.


Lemma digits2_pos_size (p : positive) : digits2_pos p = Pos.size p.
Proof. induction p; simpl; congruence. Qed.

Lemma Zdigits2_nonneg (m : Z) : 0 <= Zdigits2 m.
Proof. destruct m; simpl; lia. Qed.

Lemma Zdigits2_lower (m : Z) : 0 < m -> 2 ^ (Zdigits2 m - 1) <= m.
Proof.
  destruct m as [|p|p]; try lia. intros _. simpl.
  rewrite digits2_pos_size.
  pose proof (Pos.size_le p) as H.
  assert (H' : 2 ^ Z.pos (Pos.size p) <= 2 * Z.pos p).
  { change 2 with (Z.pos 2) at 1. rewrite <- Pos2Z.inj_pow. lia. }
  replace (Z.pos (Pos.size p)) with (Z.succ (Z.pos (Pos.size p) - 1)) in H' by lia.
  rewrite Z.pow_succ_r in H' by lia. lia.
Qed.

Lemma Zdigits2_upper (m : Z) : 0 <= m -> m < 2 ^ Zdigits2 m.
Proof.
  destruct m as [|p|p]; try lia; intros _; simpl; [lia|].
  rewrite digits2_pos_size.
  pose proof (Pos.size_gt p) as H.
  change 2 with (Z.pos 2). rewrite <- Pos2Z.inj_pow. lia.
Qed.

Lemma Zdigits2_le_of_lt (m k : Z) : 0 <= m -> 0 <= k -> m < 2 ^ k -> Zdigits2 m <= k.
Proof.
  intros Hm Hk Hlt.
  destruct (Z.eq_dec m 0) as [->|Hne]; [simpl; lia|].
  pose proof (Zdigits2_lower m ltac:(lia)) as Hlo.
  destruct (Z_le_gt_dec (Zdigits2 m) k) as [|Hgt]; [assumption|exfalso].
  assert (2 ^ k <= 2 ^ (Zdigits2 m - 1)) by (apply Z.pow_le_mono_r; lia).
  lia.
Qed.

Lemma shr_1_m (mrs : shr_record) :
  0 <= shr_m mrs -> shr_m (shr_1 mrs) = shr_m mrs / 2.
Proof.
  destruct mrs as [m r s]; simpl. intros Hm.
  destruct m as [|p|p]; try lia; [reflexivity|].
  destruct p as [p|p|]; simpl shr_m.
  - rewrite Pos2Z.inj_xI. apply Z.div_unique with 1; lia.
  - rewrite Pos2Z.inj_xO. apply Z.div_unique with 0; lia.
  - reflexivity.
Qed.

Lemma iter_shr_1_m (p : positive) (mrs : shr_record) :
  0 <= shr_m mrs -> shr_m (SpecFloat.iter_pos shr_1 p mrs) = shr_m mrs / 2 ^ Z.pos p.
Proof.
  revert mrs. induction p as [p IH|p IH|]; intros mrs Hm; simpl SpecFloat.iter_pos.
  - assert (H1 : 0 <= shr_m (shr_1 mrs)) by (rewrite shr_1_m by lia; apply Z.div_pos; lia).
    assert (H2 : 0 <= shr_m (SpecFloat.iter_pos shr_1 p (shr_1 mrs)))
      by (rewrite IH by lia; apply Z.div_pos; lia).
    rewrite IH, IH, shr_1_m by lia.
    rewrite !Z.div_div by lia. f_equal.
    replace (Z.pos p~1) with (1 + Z.pos p + Z.pos p) by lia.
    rewrite !Z.pow_add_r by lia. lia.
  - assert (H2 : 0 <= shr_m (SpecFloat.iter_pos shr_1 p mrs))
      by (rewrite IH by lia; apply Z.div_pos; lia).
    rewrite IH, IH by lia.
    rewrite !Z.div_div by lia. f_equal.
    replace (Z.pos p~0) with (Z.pos p + Z.pos p) by lia.
    rewrite !Z.pow_add_r by lia. lia.
  - rewrite shr_1_m by lia. reflexivity.
Qed.

Lemma shr_m_shr (mrs mrs' : shr_record) (e n e' : Z) :
  0 <= shr_m mrs -> shr mrs e n = (mrs', e') ->
  shr_m mrs' = shr_m mrs / 2 ^ Z.max 0 n /\ e' = e + Z.max 0 n.
Proof.
  intros Hm. unfold shr. destruct n as [|p|p]; intros [= <- <-].
  - simpl. rewrite Z.div_1_r. lia.
  - rewrite iter_shr_1_m by lia. rewrite Z.max_r by lia. lia.
  - rewrite Z.max_l by lia. simpl. rewrite Z.div_1_r. lia.
Qed.

Lemma shr_m_record_of_loc (m : Z) (l : location) : shr_m (shr_record_of_loc m l) = m.
Proof. destruct l as [|[]]; reflexivity. Qed.

Lemma round_nearest_even_bounds (m : Z) (l : location) :
  m <= round_nearest_even m l <= m + 1.
Proof. destruct l as [|[]]; simpl; try lia. destruct (Z.even m); lia. Qed.


Lemma fexp_eq (e : Z) : fexp prec emax e = Z.max (e - 53) (-1074).
Proof. reflexivity. Qed.

Lemma div_succ_le (a b : Z) : 0 < b -> (a + 1) / b <= a / b + 1.
Proof.
  intros Hb.
  replace (a / b + 1) with ((a + 1 * b) / b) by (rewrite Z.div_add by lia; lia).
  apply Z.div_le_mono; lia.
Qed.

Lemma Zdigits2_div_pow2 (m n : Z) :
  0 <= m -> 0 <= n -> Zdigits2 (m / 2 ^ n) <= Z.max 0 (Zdigits2 m - n).
Proof.
  intros Hm Hn.
  assert (H0 : 0 <= m / 2 ^ n) by (apply Z.div_pos; lia).
  apply Zdigits2_le_of_lt; [lia | lia |].
  pose proof (Zdigits2_upper m Hm) as Hup.
  pose proof (Zdigits2_nonneg m) as Hd.
  destruct (Z_le_gt_dec n (Zdigits2 m)) as [Hle|Hgt].
  - rewrite Z.max_r by lia.
    apply Z.div_lt_upper_bound; [lia|].
    rewrite <- Z.pow_add_r by lia. replace (n + (Zdigits2 m - n)) with (Zdigits2 m) by lia. lia.
  - rewrite Z.max_l by lia. simpl.
    apply Z.div_lt_upper_bound; [lia|].
    assert (2 ^ Zdigits2 m <= 2 ^ n) by (apply Z.pow_le_mono_r; lia). lia.
Qed.

Lemma binary_round_aux_finite (sx : bool) (mx ex : Z) (lx : location)
      (s : bool) (m : positive) (e : Z) :
  0 <= mx ->
  binary_round_aux prec emax sx mx ex lx = S754_finite s m e ->
  s = sx /\
  exists N, 0 <= N /\ e = ex + N /\
            mx / 2 ^ N <= Z.pos m <= mx / 2 ^ N + 1 /\
            N <= Z.max 0 (Z.max (Zdigits2 mx - 52) (-1074 - ex)).
Proof.
  intros Hmx. unfold binary_round_aux.
  destruct (shr_fexp prec emax mx ex lx) as [mrs1 e1] eqn:H1.
  destruct (shr_fexp prec emax (round_nearest_even (shr_m mrs1) (loc_of_shr_record mrs1)) e1 loc_Exact)
    as [mrs2 e2] eqn:H2.
  unfold shr_fexp in H1, H2. rewrite fexp_eq in H1, H2.
  apply shr_m_shr in H1; [|rewrite shr_m_record_of_loc; lia].
  rewrite shr_m_record_of_loc in H1. destruct H1 as [Hm1 He1].
  set (n1 := Z.max 0 (Z.max (Zdigits2 mx + ex - 53) (-1074) - ex)) in *.
  assert (Hm1pos : 0 <= shr_m mrs1) by (rewrite Hm1; apply Z.div_pos; lia).
  pose proof (round_nearest_even_bounds (shr_m mrs1) (loc_of_shr_record mrs1)) as Hr.
  set (mr := round_nearest_even (shr_m mrs1) (loc_of_shr_record mrs1)) in *.
  apply shr_m_shr in H2; [|simpl; lia]. simpl shr_m in H2. destruct H2 as [Hm2 He2].
  set (n2 := Z.max 0 (Z.max (Zdigits2 mr + e1 - 53) (-1074) - e1)) in *.
  destruct (shr_m mrs2) as [|p|p] eqn:Hp; try discriminate.
  destruct (e2 <=? emax - prec); try discriminate.
  intros [= <- <- <-]. split; [reflexivity|].
  exists (n1 + n2).
  assert (Hn1 : 0 <= n1) by lia. assert (Hn2 : 0 <= n2) by lia.
  split; [lia|]. split; [lia|].
  rewrite Z.pow_add_r, <- Z.div_div by lia. rewrite <- Hm1.
  split.
  - split.
    + rewrite Hm2. apply Z.div_le_mono; lia.
    + rewrite Hm2. etransitivity; [|apply div_succ_le; lia].
      apply Z.div_le_mono; lia.
  - assert (Hd1 : Zdigits2 (shr_m mrs1) <= Z.max 0 (Zdigits2 mx - n1))
      by (rewrite Hm1; apply Zdigits2_div_pow2; lia).
    assert (Hdr : Zdigits2 mr <= Z.max 0 (Zdigits2 mx - n1) + 1).
    { apply Zdigits2_le_of_lt; [lia | lia |].
      pose proof (Zdigits2_upper (shr_m mrs1) Hm1pos) as Hu.
      assert (2 ^ Zdigits2 (shr_m mrs1) <= 2 ^ Z.max 0 (Zdigits2 mx - n1))
        by (apply Z.pow_le_mono_r; lia).
      rewrite Z.pow_add_r by lia. lia. }
    lia.
Qed.


Lemma SFdiv_core_binary_spec (m1 e1 m2 e2 q e' : Z) (l : location) :
  0 < m1 -> 0 < m2 ->
  SFdiv_core_binary prec emax m1 e1 m2 e2 = (q, e', l) ->
  exists sh, 0 <= sh /\ e' = e1 - e2 - sh /\ q = (m1 * 2 ^ sh) / m2 /\
             e' = Z.min (Z.max (Zdigits2 m1 + e1 - (Zdigits2 m2 + e2) - 53) (-1074)) (e1 - e2).
Proof.
  intros H1 H2. unfold SFdiv_core_binary. rewrite fexp_eq.
  set (e0 := Z.min _ (e1 - e2)).
  assert (He0 : e0 <= e1 - e2) by apply Z.le_min_r.
  set (m' := match e1 - e2 - e0 with Z0 => m1 | Z.pos _ => Z.shiftl m1 (e1 - e2 - e0) | Z.neg _ => 0 end).
  assert (Hm' : m' = m1 * 2 ^ (e1 - e2 - e0)).
  { subst m'. destruct (e1 - e2 - e0) as [|p|p] eqn:Hs; [simpl; lia| |lia].
    rewrite Z.shiftl_mul_pow2 by lia. reflexivity. }
  pose proof (Z.div_eucl_eq m' m2 ltac:(lia)) as Heq.
  assert (Hdiv : m' / m2 = fst (Z.div_eucl m' m2)).
  { unfold Z.div. destruct (Z.div_eucl m' m2); reflexivity. }
  destruct (Z.div_eucl m' m2) as [q0 r0].
  intros [= <- <- <-]. exists (e1 - e2 - e0).
  split; [lia|]. split; [lia|]. split; [|reflexivity].
  rewrite <- Hm'. simpl in Hdiv. congruence.
Qed.

Lemma SFdiv_finite (sx sy : bool) (mx my : positive) (ex ey : Z)
      (s : bool) (m : positive) (e : Z) :
  SFdiv prec emax (S754_finite sx mx ex) (S754_finite sy my ey) = S754_finite s m e ->
  exists sh N, 0 <= sh /\ 0 <= N /\ e = ex - ey - sh + N /\
    (Z.pos mx * 2 ^ sh / Z.pos my) / 2 ^ N <= Z.pos m <= (Z.pos mx * 2 ^ sh / Z.pos my) / 2 ^ N + 1 /\
    N <= Z.max 0 (Z.max (Zdigits2 (Z.pos mx * 2 ^ sh / Z.pos my) - 52) (-1074 - (ex - ey - sh))) /\
    ex - ey - sh = Z.min (Z.max (Zdigits2 (Z.pos mx) + ex - (Zdigits2 (Z.pos my) + ey) - 53) (-1074)) (ex - ey).
Proof.
  unfold SFdiv.
  destruct (SFdiv_core_binary prec emax (Z.pos mx) ex (Z.pos my) ey) as [[mz ez] lz] eqn:Hc.
  apply SFdiv_core_binary_spec in Hc; [|lia|lia].
  destruct Hc as (sh & Hsh & Hez & -> & Hmin).
  intros Hr. apply binary_round_aux_finite in Hr.
  - destruct Hr as (_ & N & HN & -> & Hm & HNle).
    exists sh, N. rewrite Hez in HNle. repeat split; try lia.
  - apply Z.div_pos; lia.
Qed.

Lemma int_truediv_30_lower (s : Z) (sg : bool) (mA : positive) (eA : Z) :
  1000 <= s ->
  int_truediv s 30 = Ok (S754_finite sg mA eA) ->
  exists sh N, 0 <= sh /\ 0 <= N /\ eA = N - sh /\ 21 * 2 ^ sh <= Z.pos mA * 2 ^ N.
Proof.
  intros Hs. unfold int_truediv. destruct (decide (30 = 0)) as [|_]; [lia|].
  destruct s as [|ps|ps]; try lia. simpl exact.
  destruct (SFdiv prec emax (S754_finite false ps 0) (S754_finite false 30 0))
    as [| | |s3 m3 e3] eqn:Hd; try discriminate.
  intros [= -> -> ->].
  apply SFdiv_finite in Hd. destruct Hd as (sh & N & Hsh & HN & He & Hm & HNle & Hmin).
  exists sh, N. split; [lia|]. split; [lia|]. split; [lia|].
  set (Q := Z.pos ps * 2 ^ sh / 30) in *.
  assert (HP : 1 <= 2 ^ sh) by (apply (Z.pow_le_mono_r 2 0 sh); lia).
  assert (HK : 1 <= 2 ^ N) by (apply (Z.pow_le_mono_r 2 0 N); lia).
  assert (HX : 1000 * 2 ^ sh <= Z.pos ps * 2 ^ sh) by (apply Z.mul_le_mono_nonneg_r; lia).
  assert (HQ : Z.pos ps * 2 ^ sh < 30 * Z.succ Q) by (apply Z.mul_succ_div_gt; lia).
  assert (HQpos : 0 < Q) by lia.
  assert (HmK : Q < 2 ^ N * Z.succ (Q / 2 ^ N)) by (apply Z.mul_succ_div_gt; lia).
  assert (HmK' : Q - 2 ^ N + 1 <= Z.pos mA * 2 ^ N) by nia.
  assert (Hd1 : 1 <= Zdigits2 (Z.pos ps)) by (simpl; lia).
  change (Zdigits2 30) with 5 in Hmin.
  assert (HN' : N <= Z.max 0 (Zdigits2 Q - 52)) by lia.
  destruct (Z.eq_dec N 0) as [->|HNne].
  - change (2 ^ 0) with 1 in *. lia.
  - assert (HKQ : 2 ^ N * 2 ^ 51 <= Q).
    { rewrite <- Z.pow_add_r by lia.
      etransitivity; [|apply Zdigits2_lower; lia].
      apply Z.pow_le_mono_r; lia. }
    lia.
Qed.


Lemma SFdiv_below_one (mq mA : positive) (eq eA sh N : Z) (sg s3 : bool)
      (m3 : positive) (e3 : Z) :
  eq <= 0 -> Z.pos mq <= 20 * 2 ^ (- eq) -> Zdigits2 (Z.pos mq) + eq <= 5 ->
  0 <= sh -> 0 <= N -> eA = N - sh -> 21 * 2 ^ sh <= Z.pos mA * 2 ^ N ->
  SFdiv prec emax (S754_finite false mq eq) (S754_finite sg mA eA) = S754_finite s3 m3 e3 ->
  e3 < 0 /\ Z.pos m3 < 2 ^ (- e3).
Proof.
  intros Heq Hq Hdq Hsh HN HeA Havg Hd.
  apply SFdiv_finite in Hd.
  destruct Hd as (sh2 & N2 & Hsh2 & HN2 & He3 & Hm3 & HN2le & Hmin).
  set (Q2 := Z.pos mq * 2 ^ sh2 / Z.pos mA) in *.
  set (E := sh2 - eq + eA).
  assert (HdA : 5 <= Zdigits2 (Z.pos mA) + eA).
  { pose proof (Zdigits2_upper (Z.pos mA) ltac:(lia)) as Hup.
    pose proof (Zdigits2_nonneg (Z.pos mA)) as Hnn.
    assert (H1 : 2 ^ (sh + 4) < 2 ^ (Zdigits2 (Z.pos mA) + N)).
    { rewrite !Z.pow_add_r by lia. change (2 ^ 4) with 16.
      assert (0 < 2 ^ sh) by (apply Z.pow_pos_nonneg; lia).
      assert (0 < 2 ^ N) by (apply Z.pow_pos_nonneg; lia).
      nia. }
    apply Z.pow_lt_mono_r_iff in H1; lia. }
  assert (HE : 53 <= E) by lia.
  assert (HPsh : 0 < 2 ^ sh) by (apply Z.pow_pos_nonneg; lia).
  assert (HPN : 0 < 2 ^ N) by (apply Z.pow_pos_nonneg; lia).
  assert (HPsh2 : 0 < 2 ^ sh2) by (apply Z.pow_pos_nonneg; lia).
  assert (HQ2nn : 0 <= Q2) by (apply Z.div_pos; lia).
  assert (HQ2 : 21 * Q2 <= 20 * 2 ^ E).
  { assert (Hmul : Z.pos mA * Q2 <= Z.pos mq * 2 ^ sh2) by (apply Z.mul_div_le; lia).
    assert (Hexp : 2 ^ (- eq) * 2 ^ sh2 * 2 ^ N = 2 ^ E * 2 ^ sh).
    { rewrite <- !Z.pow_add_r by lia. f_equal. lia. }
    assert (H21 : 21 * 2 ^ sh * Q2 <= 20 * 2 ^ E * 2 ^ sh).
    { transitivity (Z.pos mA * 2 ^ N * Q2); [apply Z.mul_le_mono_nonneg_r; lia|].
      transitivity (Z.pos mq * 2 ^ sh2 * 2 ^ N); [nia|].
      transitivity (20 * 2 ^ (- eq) * 2 ^ sh2 * 2 ^ N); [|nia].
      apply Z.mul_le_mono_nonneg_r; [lia|]. apply Z.mul_le_mono_nonneg_r; lia. }
    nia. }
  assert (HPE : 0 < 2 ^ E) by (apply Z.pow_pos_nonneg; lia).
  assert (HdQ2 : Zdigits2 Q2 <= E) by (apply Zdigits2_le_of_lt; lia).
  assert (HN2E : N2 <= E - 52) by lia.
  split; [lia|].
  replace (- e3) with (E - N2) by lia.
  assert (HP : 2 ^ 52 <= 2 ^ (E - N2)) by (apply Z.pow_le_mono_r; lia).
  assert (HK : 0 < 2 ^ N2) by (apply Z.pow_pos_nonneg; lia).
  assert (HKP : 2 ^ N2 * 2 ^ (E - N2) = 2 ^ E).
  { rewrite <- Z.pow_add_r by lia. f_equal. lia. }
  assert (Ht : 2 ^ N2 * (Q2 / 2 ^ N2) <= Q2) by (apply Z.mul_div_le; lia).
  change (2 ^ 52) with 4503599627370496 in HP.
  assert (H21t : 21 * (Q2 / 2 ^ N2) <= 20 * 2 ^ (E - N2)) by nia.
  lia.
Qed.


Lemma of_int_small (q : Z) (x : spec_float) :
  1 <= q <= 20 -> of_int q = Ok x ->
  exists mq eq, x = S754_finite false mq eq /\ eq <= 0 /\
                Z.pos mq <= 20 * 2 ^ (- eq) /\ Zdigits2 (Z.pos mq) + eq <= 5.
Proof.
  intros Hq. destruct q as [|p|p]; try lia.
  do 5 (try (destruct p as [p|p|]; try lia));
    (vm_compute; intros [= <-]; do 2 eexists; split; [reflexivity|];
     vm_compute; intuition discriminate).
Qed.

Lemma to_int_below_one (s : bool) (m : positive) (e : Z) :
  e < 0 -> Z.pos m < 2 ^ (- e) -> to_int (S754_finite s m e) = Ok 0.
Proof.
  intros He Hm. unfold to_int. destruct (decide (0 <= e)) as [|_]; [lia|].
  rewrite Z.div_small by lia. by destruct s.
Qed.

Lemma days_far (q s : Z) (avg x d : spec_float) (days : Z) :
  0 <= q <= 20 -> 1000 <= s ->
  int_truediv s 30 = Ok avg -> of_int q = Ok x -> truediv x avg = Ok d ->
  to_int d = Ok days -> days = 0.
Proof.
  intros Hq Hs Havg Hx Hd Hdays.
  destruct avg as [sa|sa| |sa mA eA].
  - discriminate.
  - unfold int_truediv in Havg. destruct (decide (30 = 0)); [lia|].
    destruct (SFdiv _ _ _ _); discriminate.
  - injection Hd as <-. destruct x; discriminate Hdays.
  - apply int_truediv_30_lower in Havg as (sh & N & Hsh & HN & HeA & Hlow); [|done].
    injection Hd as <-.
    destruct (decide (q = 0)) as [->|Hq0].
    + injection Hx as <-. simpl in Hdays. congruence.
    + apply of_int_small in Hx as (mq & eq & -> & Heq & Hmq & Hdq); [|lia].
      destruct (SFdiv prec emax (S754_finite false mq eq) (S754_finite sa mA eA))
        as [s3|s3| |s3 m3 e3] eqn:Hdiv; [| discriminate Hdays | discriminate Hdays |].
      * simpl in Hdays. congruence.
      * apply (SFdiv_below_one mq mA eq eA sh N) in Hdiv as [He3 Hm3]; try assumption.
        rewrite to_int_below_one in Hdays by assumption. congruence.
Qed.

Lemma days_near_grid :
  forallb (fun q =>
    forallb (fun s =>
      match avg <- int_truediv s 30 ;; x <- of_int q ;; d <- truediv x avg ;; to_int d with
      | Ok days => days =? 30 * q / s
      | Raise _ => false
      end) (List.map Z.of_nat (List.seq 1 999)))
    (List.map Z.of_nat (List.seq 0 21)) = true.
Proof. vm_compute. reflexivity. Qed.

Lemma days_near (q s : Z) (avg x d : spec_float) (days : Z) :
  0 <= q <= 20 -> 0 < s < 1000 ->
  int_truediv s 30 = Ok avg -> of_int q = Ok x -> truediv x avg = Ok d ->
  to_int d = Ok days -> days = 30 * q / s.
Proof.
  intros Hq Hs Havg Hx Hd Hdays.
  pose proof days_near_grid as G.
  rewrite forallb_forall in G.
  assert (Hinq : In q (List.map Z.of_nat (List.seq 0 21))).
  { replace q with (Z.of_nat (Z.to_nat q)) by lia. apply in_map, in_seq. lia. }
  apply G in Hinq. rewrite forallb_forall in Hinq.
  assert (Hins : In s (List.map Z.of_nat (List.seq 1 999))).
  { replace s with (Z.of_nat (Z.to_nat s)) by lia. apply in_map, in_seq. lia. }
  apply Hinq in Hins. unfold bind in Hins.
  rewrite Havg, Hx, Hd, Hdays in Hins. by apply Z.eqb_eq.
Qed.

Lemma days_exact (q s : Z) (avg x d : spec_float) (days : Z) :
  0 <= q <= 20 -> 0 < s ->
  int_truediv s 30 = Ok avg -> of_int q = Ok x -> truediv x avg = Ok d ->
  to_int d = Ok days -> days = 30 * q / s.
Proof.
  intros Hq Hs Havg Hx Hd Hdays.
  destruct (Z_lt_ge_dec s 1000).
  - eapply days_near; eauto; lia.
  - rewrite Z.div_small by lia. eapply days_far; eauto; lia.
Qed.

End PyFloatFacts.

(** ** The low-stock alert endpoint *)

Module Part3Facts.
Import Part3 Samples.



Lemma sum_int64_Ok (acc : Z) (vs : list Z) (r : Z) :
  sum_int64 acc vs = Ok r -> r = acc + foldr Z.add 0 vs.
Proof.
  revert acc. induction vs as [|v vs IH]; intros acc; simpl.
  - intros [= <-]. lia.
  - destruct (fits_int64 (acc + v)); [|discriminate].
    intros H. apply IH in H. lia.
Qed.

Lemma sales_total_nonneg db pid wid since : 0 <= sales_total db pid wid since.
Proof. apply Z.abs_nonneg. Qed.

(** When the scalar query returns, it returns the sales total, or NULL
    when there is no recent sale with a quantity change. *)
Lemma sales_query_Ok db pid wid since o :
  sales_query db pid wid since = Ok o ->
  (o = None /\ sales_total db pid wid since = 0) \/
  o = Some (sales_total db pid wid since).
Proof.
  unfold sales_query, sales_total.
  destruct (recent_sales db pid wid since) as [|v vs] eqn:Hr.
  - intros [= <-]. by left.
  - intros H. apply bind_Ok in H as (z & Hz & H).
    apply bind_Ok in H as (a & Ha & H). injection H as <-.
    apply sum_int64_Ok in Hz. unfold abs_int64 in Ha.
    destruct (fits_int64 (Z.abs z)); [|discriminate]. injection Ha as <-.
    right. f_equal. f_equal. lia.
Qed.

Lemma loop_body_Some db since inv p w sup a :
  loop_body db since (inv, p, w, sup) = Ok (Some a) ->
  exists sales quantity avg x d days,
    sales_total db (Product.id p) (Warehouse.id w) since = sales /\
    0 < sales /\
    PyFloat.int_truediv sales 30 = Ok avg /\
    Inventory.quantity inv = Some quantity /\
    quantity <= threshold_for (Product.product_type p) /\
    PyFloat.of_int quantity = Ok x /\
    PyFloat.truediv x avg = Ok d /\
    PyFloat.to_int d = Ok days /\
    a = {| a_product_id := Product.id p; a_product_name := Product.name p;
           a_sku := Product.sku p; a_warehouse_id := Warehouse.id w;
           a_warehouse_name := Warehouse.name w; a_current_stock := quantity;
           a_threshold := threshold_for (Product.product_type p);
           a_days_until_stockout := days; a_supplier := supplier_entry sup |}.
Proof.
  unfold loop_body. intros H. apply bind_Ok in H as (o & Hs & H).
  pose proof (sales_total_nonneg db (Product.id p) (Warehouse.id w) since) as Hnn.
  apply sales_query_Ok in Hs as [[-> _]| ->]; [discriminate|].
  destruct (sales_total db (Product.id p) (Warehouse.id w) since) as [|s|s] eqn:Hs;
    [discriminate| |lia].
  apply bind_Ok in H as (avg & Havg & H).
  destruct (Inventory.quantity inv) as [q|]; [|discriminate].
  destruct (bool_decide (q <= threshold_for (Product.product_type p))) eqn:Hle;
    [|discriminate].
  apply bool_decide_eq_true in Hle.
  apply bind_Ok in H as (x & Hx & H).
  apply bind_Ok in H as (d & Hd & H).
  apply bind_Ok in H as (days & Hdays & H).
  injection H as <-.
  exists (Z.pos s), q, avg, x, d, days. repeat split; try assumption; lia.
Qed.

Lemma emitted_Some db since r a :
  emitted db since r = Some a <-> loop_body db since r = Ok (Some a).
Proof.
  unfold emitted. destruct (loop_body db since r) as [o|e]; split; congruence.
Qed.

Lemma loop_Ok db since rows acc alerts :
  loop db since rows acc = Ok alerts ->
  alerts = acc ++ omap (emitted db since) rows.
Proof.
  revert acc. induction rows as [|r rows IH]; intros acc; simpl.
  - intros [= <-]. by rewrite app_nil_r.
  - intros H. apply bind_Ok in H as (o & Ho & H).
    unfold emitted at 1. rewrite Ho.
    destruct o as [a|]; apply IH in H; [|done].
    by rewrite H, <- app_assoc.
Qed.

Lemma low_stock_alerts_Json db utcnow c st b :
  low_stock_alerts db utcnow c = Json st b ->
  st = 200 /\ total_alerts b = length (alerts b) /\
  alerts b = omap (emitted db (thirty_days_ago utcnow)) (results db c).
Proof.
  unfold low_stock_alerts, run_query.
  destruct (fits_int64 c); [simpl|discriminate].
  destruct (loop _ _ _ _) as [l|e] eqn:Hl; [|discriminate].
  intros [= <- <-]. apply loop_Ok in Hl. simpl in *. auto.
Qed.

Lemma alert_origin db utcnow c st b a :
  low_stock_alerts db utcnow c = Json st b -> a ∈ alerts b ->
  exists r, r ∈ results db c /\ loop_body db (thirty_days_ago utcnow) r = Ok (Some a).
Proof.
  intros H Ha. apply low_stock_alerts_Json in H as (_ & _ & H).
  rewrite H in Ha. apply list_elem_of_omap in Ha as (r & Hr & Hem).
  exists r. split; [done|]. by apply emitted_Some.
Qed.

Lemma elem_of_results db c inv p w s :
  (inv, p, w, s) ∈ results db c <->
  inv ∈ inventory db /\ p ∈ products db /\ w ∈ warehouses db /\ s ∈ suppliers db /\
  Inventory.product_id inv = Some (Product.id p) /\
  Inventory.warehouse_id inv = Some (Warehouse.id w) /\
  Warehouse.company_id w = Some c /\
  exists ps, ps ∈ product_suppliers db /\
             Product.id p = ProductSupplier.product_id ps /\
             Supplier.id s = ProductSupplier.supplier_id ps.
Proof.
  unfold results. rewrite list_elem_of_filter. simpl.
  rewrite list_elem_of_bind. split.
  - intros (Hc & inv' & Hin & Hinv).
    apply list_elem_of_bind in Hin as (p' & Hin & Hp).
    apply list_elem_of_bind in Hin as (w' & Hin & Hw).
    apply list_elem_of_bind in Hin as (ps & Hin & Hps).
    apply list_elem_of_bind in Hin as (s' & Hin & Hs).
    apply list_elem_of_singleton in Hin. injection Hin as -> -> -> ->.
    apply list_elem_of_filter in Hp as [? ?]. apply list_elem_of_filter in Hw as [? ?].
    apply list_elem_of_filter in Hps as [? ?]. apply list_elem_of_filter in Hs as [? ?].
    eauto 12.
  - intros (Hinv & Hp & Hw & Hs & Hpi & Hwi & Hc & ps & Hps & Hpp & Hss).
    split; [done|]. exists inv. split; [|done].
    apply list_elem_of_bind. exists p. split; [|by apply list_elem_of_filter].
    apply list_elem_of_bind. exists w. split; [|by apply list_elem_of_filter].
    apply list_elem_of_bind. exists ps. split; [|by apply list_elem_of_filter].
    apply list_elem_of_bind. exists s. split; [|by apply list_elem_of_filter].
    by apply list_elem_of_singleton.
Qed.


Lemma exact_days_eq (q s : Z) : 0 < s -> exact_days q s = 30 * q / s.
Proof.
  intros Hs. destruct s as [|p|p]; try lia.
  unfold exact_days, Qfloor, Qdiv, Qmult, Qinv, inject_Z. simpl.
  f_equal; lia.
Qed.

Lemma emitted_fields db since inv p w s a :
  emitted db since (inv, p, w, s) = Some a ->
  a_product_id a = Product.id p /\ a_warehouse_id a = Warehouse.id w /\
  a_supplier a = supplier_entry s /\
  a_threshold a = threshold_for (Product.product_type p) /\
  Inventory.quantity inv = Some (a_current_stock a) /\
  a_current_stock a <= a_threshold a /\
  0 < sales_total db (Product.id p) (Warehouse.id w) since.
Proof.
  intros H. apply emitted_Some, loop_body_Some in H
    as (sales & q & avg & x & d & days & Hs & Hpos & _ & Hq & Hle & _ & _ & _ & ->).
  rewrite Hs. simpl. auto 10.
Qed.

Lemma loop_body_other_supplier db since inv p w s s' a :
  loop_body db since (inv, p, w, s) = Ok (Some a) ->
  loop_body db since (inv, p, w, s')
  = Ok (Some {| a_product_id := a_product_id a; a_product_name := a_product_name a;
                a_sku := a_sku a; a_warehouse_id := a_warehouse_id a;
                a_warehouse_name := a_warehouse_name a;
                a_current_stock := a_current_stock a; a_threshold := a_threshold a;
                a_days_until_stockout := a_days_until_stockout a;
                a_supplier := supplier_entry s' |}).
Proof.
  unfold loop_body.
  destruct (sales_query db (Product.id p) (Warehouse.id w) since) as [[[|sl|sl]|]|e];
    simpl; try discriminate;
    (destruct (PyFloat.int_truediv _ 30) as [avg|e]; simpl; [|discriminate];
     destruct (Inventory.quantity inv) as [q|]; [|discriminate];
     destruct (bool_decide _); [|discriminate];
     destruct (PyFloat.of_int q) as [x|e]; simpl; [|discriminate];
     destruct (PyFloat.truediv x avg) as [d|e]; simpl; [|discriminate];
     destruct (PyFloat.to_int d) as [days|e]; simpl; [|discriminate];
     intros [= <-]; reflexivity).
Qed.

(** C1, as amended.  When the endpoint answers, its alerts are the alerts
    of the joined (inventory, product, warehouse, supplier) rows that
    qualify: one alert for each such row, carrying that row's one supplier
    under its [supplier] key.  When two joined rows differ only in their
    supplier and one of them qualifies, the response holds two separate
    alerts for the same product and warehouse, one with each supplier. *)
Theorem C1_one_alert_per_joined_row db utcnow c st b :
  low_stock_alerts db utcnow c = Json st b ->
  alerts b ≡ₚ omap (emitted db (thirty_days_ago utcnow)) (results db c) /\
  Forall (fun r : row => forall a, emitted db (thirty_days_ago utcnow) r = Some a ->
            a_product_id a = Product.id r.1.1.2 /\
            a_warehouse_id a = Warehouse.id r.1.2 /\
            a_supplier a = supplier_entry r.2) (results db c) /\
  (forall inv p w s1 s2 a1,
     (inv, p, w, s1) ∈ results db c -> (inv, p, w, s2) ∈ results db c ->
     Supplier.id s1 <> Supplier.id s2 ->
     emitted db (thirty_days_ago utcnow) (inv, p, w, s1) = Some a1 ->
     exists a2,
       emitted db (thirty_days_ago utcnow) (inv, p, w, s2) = Some a2 /\
       a1 ∈ alerts b /\ a2 ∈ alerts b /\ a1 <> a2 /\
       a_product_id a2 = a_product_id a1 /\ a_warehouse_id a2 = a_warehouse_id a1 /\
       a_supplier a1 = supplier_entry s1 /\ a_supplier a2 = supplier_entry s2).
Proof.
  intros H. apply low_stock_alerts_Json in H as (_ & _ & H). split; [by rewrite H|].
  split.
  - apply Forall_forall. intros [[[inv p] w] s] _ a Ha.
    apply emitted_fields in Ha as (? & ? & ? & _). auto.
  - intros inv p w s1 s2 a1 Hin1 Hin2 Hne Ha1.
    pose proof (emitted_fields _ _ _ _ _ _ _ Ha1) as (_ & _ & Hs1 & _).
    pose proof Ha1 as Ha2. apply emitted_Some in Ha2.
    apply (loop_body_other_supplier _ _ _ _ _ _ s2) in Ha2. apply emitted_Some in Ha2.
    eexists. split; [exact Ha2|]. rewrite H.
    split; [apply list_elem_of_omap; eauto|]. split; [apply list_elem_of_omap; eauto|].
    split; [|by repeat split].
    intros Heq. rewrite Heq in Hs1. simpl in Hs1.
    apply Hne. symmetry. by injection Hs1.
Qed.

Lemma C1_one_alert_per_joined_row_witness :
  [widget_alert acme; widget_alert bolt]
  ≡ₚ omap (emitted two_suppliers (thirty_days_ago utcnow)) (results two_suppliers 1) /\
  Forall (fun r : row => forall a, emitted two_suppliers (thirty_days_ago utcnow) r = Some a ->
            a_product_id a = Product.id r.1.1.2 /\
            a_warehouse_id a = Warehouse.id r.1.2 /\
            a_supplier a = supplier_entry r.2) (results two_suppliers 1) /\
  (forall inv p w s1 s2 a1,
     (inv, p, w, s1) ∈ results two_suppliers 1 -> (inv, p, w, s2) ∈ results two_suppliers 1 ->
     Supplier.id s1 <> Supplier.id s2 ->
     emitted two_suppliers (thirty_days_ago utcnow) (inv, p, w, s1) = Some a1 ->
     exists a2,
       emitted two_suppliers (thirty_days_ago utcnow) (inv, p, w, s2) = Some a2 /\
       a1 ∈ [widget_alert acme; widget_alert bolt] /\
       a2 ∈ [widget_alert acme; widget_alert bolt] /\ a1 <> a2 /\
       a_product_id a2 = a_product_id a1 /\ a_warehouse_id a2 = a_warehouse_id a1 /\
       a_supplier a1 = supplier_entry s1 /\ a_supplier a2 = supplier_entry s2).
Proof.
  apply (C1_one_alert_per_joined_row two_suppliers utcnow 1 200
           {| alerts := [widget_alert acme; widget_alert bolt]; total_alerts := 2 |}).
  vm_compute. reflexivity.
Defined.

(** C1 as stated fails: the widget is linked to two suppliers and the
    endpoint returns two alerts for the pair (product 1, warehouse 1), each
    with a single supplier. *)
Lemma C1_counterexample :
  low_stock_alerts two_suppliers utcnow 1
  = Json 200 {| alerts := [widget_alert acme; widget_alert bolt]; total_alerts := 2 |} /\
  length (filter (fun a => a_product_id a = 1 /\ a_warehouse_id a = 1)
                 [widget_alert acme; widget_alert bolt]) = 2%nat /\
  length (filter (fun ps => ProductSupplier.product_id ps = 1)
                 (product_suppliers two_suppliers)) = 2%nat.
Proof. vm_compute. auto. Qed.

(** C2.  In every alert the endpoint returns with a current stock of at
    least 0, the sales total of the alert's product and warehouse over the
    trailing 30 days is positive and [days_until_stockout] is the exact
    integer floor of [current_stock / (sales_total / 30)]; a stock of 15
    with 60 sold gives 7, and a stock of 0 gives 0. *)
Theorem C2_days_until_stockout_is_exact_floor db utcnow c st b a :
  low_stock_alerts db utcnow c = Json st b ->
  a ∈ alerts b ->
  0 <= a_current_stock a ->
  0 < sales_total db (a_product_id a) (a_warehouse_id a) (thirty_days_ago utcnow) /\
  a_days_until_stockout a
  = exact_days (a_current_stock a)
      (sales_total db (a_product_id a) (a_warehouse_id a) (thirty_days_ago utcnow)) /\
  (a_current_stock a = 15 ->
   sales_total db (a_product_id a) (a_warehouse_id a) (thirty_days_ago utcnow) = 60 ->
   a_days_until_stockout a = 7) /\
  (a_current_stock a = 0 -> a_days_until_stockout a = 0).
Proof.
  intros H Ha Hq.
  destruct (alert_origin _ _ _ _ _ _ H Ha) as ([[[inv p] w] s] & _ & Hb).
  apply loop_body_Some in Hb
    as (sl & q & avg & x & d & days & Hs & Hpos & Havg & _ & Hle & Hx & Hd & Hdays & ->).
  cbn [a_product_id a_warehouse_id a_current_stock a_days_until_stockout] in *.
  rewrite Hs.
  assert (Hthr : threshold_for (Product.product_type p) <= 20).
  { unfold threshold_for. destruct (Product.product_type p) as [k|]; [|lia].
    unfold THRESHOLDS.
    destruct (decide (k = "simple"%string)) as [->|?]; [by rewrite lookup_insert_eq|].
    rewrite lookup_insert_ne by done.
    destruct (decide (k = "bundle"%string)) as [->|?]; [by rewrite lookup_insert_eq|].
    by rewrite lookup_insert_ne, lookup_empty by done. }
  assert (Hdays' : days = 30 * q / sl)
    by (eapply PyFloatFacts.days_exact; eauto; lia).
  rewrite exact_days_eq by done.
  split; [done|]. split; [done|]. split.
  - intros -> ->. rewrite Hdays'. reflexivity.
  - intros ->. rewrite Hdays'. reflexivity.
Qed.

Lemma C2_days_until_stockout_is_exact_floor_witness :
  0 < sales_total two_suppliers 1 1 (thirty_days_ago utcnow) /\
  a_days_until_stockout (widget_alert acme)
  = exact_days 15 (sales_total two_suppliers 1 1 (thirty_days_ago utcnow)) /\
  (15 = 15 -> sales_total two_suppliers 1 1 (thirty_days_ago utcnow) = 60 ->
   a_days_until_stockout (widget_alert acme) = 7) /\
  (15 = 0 -> a_days_until_stockout (widget_alert acme) = 0).
Proof.
  apply (C2_days_until_stockout_is_exact_floor two_suppliers utcnow 1 200
           {| alerts := [widget_alert acme; widget_alert bolt]; total_alerts := 2 |}
           (widget_alert acme)).
  - vm_compute. reflexivity.
  - simpl. apply list_elem_of_here.
  - simpl. lia.
Defined.

(** C3.  When the sales total of a product at a warehouse over the trailing
    30 days is 0 (no matching movement counts as 0), no joined row of that
    product and warehouse contributes an alert, and no alert of any response
    is for that pair, whatever the stock and the threshold. *)
Theorem C3_no_recent_sales_no_alert db utcnow product_id warehouse_id :
  sales_total db product_id warehouse_id (thirty_days_ago utcnow) = 0 ->
  (forall inv p w s,
     Product.id p = product_id -> Warehouse.id w = warehouse_id ->
     emitted db (thirty_days_ago utcnow) (inv, p, w, s) = None) /\
  (forall c st b,
     low_stock_alerts db utcnow c = Json st b ->
     Forall (fun a => ~ (a_product_id a = product_id /\ a_warehouse_id a = warehouse_id))
            (alerts b)).
Proof.
  intros Hz.
  assert (Hrow : forall inv p w s,
            Product.id p = product_id -> Warehouse.id w = warehouse_id ->
            emitted db (thirty_days_ago utcnow) (inv, p, w, s) = None).
  { intros inv p w s <- <-.
    destruct (emitted db (thirty_days_ago utcnow) (inv, p, w, s)) as [a|] eqn:Ha; [|done].
    apply emitted_fields in Ha. lia. }
  split; [exact Hrow|].
  intros c st b H. apply Forall_forall. intros a Ha [Hp Hw].
  destruct (alert_origin _ _ _ _ _ _ H Ha) as ([[[inv p] w] s] & _ & Hb).
  apply emitted_Some in Hb.
  pose proof (emitted_fields _ _ _ _ _ _ _ Hb) as (Hp' & Hw' & _).
  rewrite (Hrow inv p w s) in Hb by congruence. discriminate.
Qed.

Lemma C3_no_recent_sales_no_alert_witness :
  (forall inv p w s,
     Product.id p = 1 -> Warehouse.id w = 1 ->
     emitted dormant (thirty_days_ago utcnow) (inv, p, w, s) = None) /\
  (forall c st b,
     low_stock_alerts dormant utcnow c = Json st b ->
     Forall (fun a => ~ (a_product_id a = 1 /\ a_warehouse_id a = 1)) (alerts b)).
Proof.
  apply (C3_no_recent_sales_no_alert dormant utcnow 1 1). vm_compute. reflexivity.
Defined.

Lemma threshold_for_other (product_type : option string) :
  product_type <> Some "simple"%string -> product_type <> Some "bundle"%string ->
  threshold_for product_type = 20.
Proof.
  intros H1 H2. destruct product_type as [k|]; [|done]. unfold threshold_for, THRESHOLDS.
  rewrite !lookup_insert_ne, lookup_empty by congruence. done.
Qed.

(** C4.  A product type other than "simple" and "bundle", a missing type
    included, resolves to the threshold 20; "simple" resolves to 20 and
    "bundle" to 10; and the threshold of an alert is the one its product's
    type resolves to. *)
Theorem C4_threshold_by_product_type (product_type : option string) :
  (product_type <> Some "simple"%string -> product_type <> Some "bundle"%string ->
   threshold_for product_type = 20) /\
  threshold_for (Some "simple"%string) = 20 /\
  threshold_for (Some "bundle"%string) = 10 /\
  (forall db since inv p w s a,
     Product.product_type p = product_type ->
     emitted db since (inv, p, w, s) = Some a -> a_threshold a = threshold_for product_type).
Proof.
  split; [apply threshold_for_other|]. split; [done|]. split; [done|].
  intros db since inv p w s a <- Ha. by apply emitted_fields in Ha as (_ & _ & _ & ? & _).
Qed.

Lemma C4_threshold_by_product_type_witness :
  threshold_for None = 20 /\ threshold_for (Some "kit"%string) = 20.
Proof.
  split.
  - apply (C4_threshold_by_product_type None); discriminate.
  - apply (C4_threshold_by_product_type (Some "kit"%string)); discriminate.
Defined.

(** C5.  A joined row whose stock is strictly above the threshold of its
    product contributes no alert, and every alert the endpoint returns has
    [current_stock <= threshold]. *)
Theorem C5_above_threshold_no_alert db utcnow inv p w s quantity :
  Inventory.quantity inv = Some quantity ->
  threshold_for (Product.product_type p) < quantity ->
  emitted db (thirty_days_ago utcnow) (inv, p, w, s) = None /\
  (forall c st b,
     low_stock_alerts db utcnow c = Json st b ->
     Forall (fun a => a_current_stock a <= a_threshold a) (alerts b)).
Proof.
  intros Hq Hgt. split.
  - destruct (emitted db (thirty_days_ago utcnow) (inv, p, w, s)) as [a|] eqn:Ha; [|done].
    apply emitted_fields in Ha as (_ & _ & _ & Ht & Hq' & Hle & _).
    rewrite Hq in Hq'. injection Hq' as ->. lia.
  - intros c st b H. apply Forall_forall. intros a Ha.
    destruct (alert_origin _ _ _ _ _ _ H Ha) as ([[[inv' p'] w'] s'] & _ & Hb).
    apply emitted_Some, emitted_fields in Hb. tauto.
Qed.

Lemma C5_above_threshold_no_alert_witness :
  emitted well_stocked (thirty_days_ago utcnow)
          (widget_stock 25, widget, main_warehouse, acme) = None /\
  (forall c st b,
     low_stock_alerts well_stocked utcnow c = Json st b ->
     Forall (fun a => a_current_stock a <= a_threshold a) (alerts b)).
Proof.
  apply (C5_above_threshold_no_alert well_stocked utcnow
           (widget_stock 25) widget main_warehouse acme 25).
  - reflexivity.
  - vm_compute. reflexivity.
Defined.

(** C6, as amended.  For a company id that fits in 64 bits and that no
    warehouse belongs to, the endpoint answers 200 with an empty [alerts]
    list and [total_alerts] 0. *)
Theorem C6_unknown_company_empty_200 db utcnow c :
  Forall (fun w => Warehouse.company_id w <> Some c) (warehouses db) ->
  - 2 ^ 63 <= c < 2 ^ 63 ->
  low_stock_alerts db utcnow c = Json 200 {| alerts := []; total_alerts := 0 |}.
Proof.
  intros Hc Hfit.
  assert (Hnil : results db c = []).
  { destruct (results db c) as [|[[[inv p] w] s] l] eqn:Hr; [done|exfalso].
    assert (Hin : (inv, p, w, s) ∈ results db c) by (rewrite Hr; apply list_elem_of_here).
    apply elem_of_results in Hin as (_ & _ & Hw & _ & _ & _ & Hcw & _).
    rewrite Forall_forall in Hc. by apply (Hc w). }
  unfold low_stock_alerts, run_query, fits_int64.
  rewrite bool_decide_eq_true_2 by done. simpl. rewrite Hnil. reflexivity.
Qed.

Lemma C6_unknown_company_empty_200_witness :
  low_stock_alerts two_suppliers utcnow 7 = Json 200 {| alerts := []; total_alerts := 0 |}.
Proof.
  apply (C6_unknown_company_empty_200 two_suppliers utcnow 7).
  - repeat constructor. simpl. discriminate.
  - lia.
Defined.

(** C6 as stated fails: no warehouse belongs to company 2^63, and the
    request for it is answered with a server error, the id being refused as
    a statement parameter. *)
Lemma C6_counterexample :
  Forall (fun w => Warehouse.company_id w <> Some (2 ^ 63)) (warehouses two_suppliers) /\
  low_stock_alerts two_suppliers utcnow (2 ^ 63) = InternalServerError OverflowError.
Proof.
  split; [|vm_compute; reflexivity].
  repeat constructor. simpl. discriminate.
Qed.

(** C9.  A product without a ProductSupplier row is in no alert of the
    response, whatever its sales and stock. *)
Theorem C9_no_supplier_no_alert db utcnow c st b product_id :
  Forall (fun ps => ProductSupplier.product_id ps <> product_id) (product_suppliers db) ->
  low_stock_alerts db utcnow c = Json st b ->
  Forall (fun a => a_product_id a <> product_id) (alerts b).
Proof.
  intros Hps H. apply Forall_forall. intros a Ha Heq.
  destruct (alert_origin _ _ _ _ _ _ H Ha) as ([[[inv p] w] s] & Hin & Hb).
  apply emitted_Some, emitted_fields in Hb as (Hp & _).
  apply elem_of_results in Hin as (_ & _ & _ & _ & _ & _ & _ & ps & Hin & Hpp & _).
  rewrite Forall_forall in Hps. apply (Hps ps Hin). congruence.
Qed.

Lemma C9_no_supplier_no_alert_witness :
  Forall (fun a => a_product_id a <> 1) [gadget_alert].
Proof.
  apply (C9_no_supplier_no_alert mixed utcnow 1 200
           {| alerts := [gadget_alert]; total_alerts := 1 |} 1).
  - repeat constructor. simpl. discriminate.
  - vm_compute. reflexivity.
Defined.

Example widget_would_alert_with_a_supplier :
  low_stock_alerts (shop 15 [link 1] [sale (-60)]) utcnow 1
  = Json 200 {| alerts := [widget_alert acme]; total_alerts := 1 |}.
Proof. vm_compute. reflexivity. Qed.

Example alert_at_the_threshold :
  exists a, low_stock_alerts (shop 20 [link 1] [sale (-60)]) utcnow 1
            = Json 200 {| alerts := [a]; total_alerts := 1 |} /\
            a_current_stock a = 20 /\ a_threshold a = 20.
Proof. eexists. vm_compute. auto. Qed.

End Part3Facts.

(** ** The product-creation endpoint *)

Module Part1Facts.
Import Part1.


Lemma foldr_max_ge (i : Z) (ids : list Z) :
  i <= foldr Z.max i ids /\ Forall (fun x => x <= foldr Z.max i ids) ids.
Proof.
  induction ids as [|j ids [IH1 IH2]]; simpl; [by split|].
  split; [lia|]. constructor; [lia|].
  eapply Forall_impl; [exact IH2|]. simpl. lia.
Qed.

Lemma next_id_gt (ids : list Z) (x : Z) : x ∈ ids -> x < next_id ids.
Proof.
  destruct ids as [|i ids]; [by intros ?%elem_of_nil|]. simpl.
  destruct (foldr_max_ge i ids) as [H1 H2]. rewrite Forall_forall in H2.
  intros [->|Hx]%elem_of_cons; [lia|]. specialize (H2 x Hx). lia.
Qed.

Section Handler.
Context (Decimal_str : json -> option decimal)
        (bindable : json -> bool)
        (sql_eq : json -> json -> bool).


Lemma validation_passes (data : gmap string json) :
  Forall (fun field => is_Some (data !! field)) required_fields ->
  List.find (fun field => bool_decide (data !! field = None)) required_fields = None /\
  exists name sku price warehouse_id,
    data !! "name"%string = Some name /\ data !! "sku"%string = Some sku /\
    data !! "price"%string = Some price /\ data !! "warehouse_id"%string = Some warehouse_id.
Proof.
  intros H. unfold required_fields in *.
  apply Forall_cons in H as [[name Hn] H]. apply Forall_cons in H as [[sku Hs] H].
  apply Forall_cons in H as [[price Hp] H]. apply Forall_cons in H as [[w Hw] _].
  split; [|eauto 10]. simpl. rewrite Hn, Hs, Hp, Hw. reflexivity.
Qed.

Lemma validation_fails (data : gmap string json) :
  ~ Forall (fun field => is_Some (data !! field)) required_fields ->
  exists field, List.find (fun field => bool_decide (data !! field = None)) required_fields
                = Some field.
Proof.
  intros H.
  destruct (List.find _ required_fields) as [f|] eqn:Hf; [eauto|exfalso].
  apply H, Forall_forall. intros f Hin.
  apply list_elem_of_In in Hin.
  eapply find_none in Hf; [|exact Hin]. simpl in Hf.
  apply bool_decide_eq_false in Hf. by apply not_eq_None_Some.
Qed.

Lemma first_by_sku_found (st : storage) (sku : json) (p : Product.t) :
  p ∈ products st -> is_null sku = false -> bindable sku = true ->
  sql_eq (Product.sku p) sku = true ->
  exists p', first_by_sku bindable sql_eq st sku = Ok (Some p').
Proof.
  intros Hin Hnull Hbind Heq. unfold first_by_sku. rewrite Hnull, Hbind.
  destruct (List.find _ (products st)) as [p'|] eqn:Hf; [eauto|exfalso].
  apply list_elem_of_In in Hin. eapply find_none in Hf; [|exact Hin].
  simpl in Hf. congruence.
Qed.

Lemma try_block_Ok st name sku price warehouse_id data product_id st' :
  try_block Decimal_str bindable sql_eq st name sku price warehouse_id data = Ok (product_id, st') ->
  exists d quantity,
    quantity = (let q := default (JInt 0) (data !! "initial_quantity"%string) in
                if is_null q then JInt 0 else q) /\
    product_id = next_id (Product.id <$> products st) /\
    products st' = products st ++
      [{| Product.id := product_id; Product.name := name;
          Product.sku := sku; Product.price := d |}] /\
    inventories st' = inventories st ++
      [{| Inventory.id := next_id (Inventory.id <$> inventories st);
          Inventory.product_id := product_id;
          Inventory.warehouse_id := warehouse_id;
          Inventory.quantity := quantity |}].
Proof.
  unfold try_block. intros H.
  apply bind_Ok in H as (d & Hd & H).
  apply bind_Ok in H as ([id st1] & Hf & H).
  apply bind_Ok in H as (st2 & Hc & H). injection H as <- <-.
  unfold flush_product in Hf.
  destruct (negb _); [discriminate|]. destruct (_ || _); [discriminate|].
  destruct (existsb _ _); [discriminate|]. injection Hf as <- <-.
  unfold commit_inventory in Hc. simpl in Hc.
  destruct (negb _); [discriminate|]. destruct (is_null warehouse_id); [discriminate|].
  injection Hc as <-. simpl. eauto 10.
Qed.

Lemma create_product_cases (st : storage) (data : gmap string json) :
  (exists field, create_product Decimal_str bindable sql_eq st data
                 = ({| status := 400; payload := Error (field ++ " is required") |}, st)
                 /\ ~ Forall (fun field => is_Some (data !! field)) required_fields) \/
  (Forall (fun field => is_Some (data !! field)) required_fields /\
   exists sku, data !! "sku"%string = Some sku /\
   ((exists e, first_by_sku bindable sql_eq st sku = Raise e /\
               create_product Decimal_str bindable sql_eq st data = ({| status := 500; payload := Unhandled e |}, st)) \/
    (exists p, first_by_sku bindable sql_eq st sku = Ok (Some p) /\
               create_product Decimal_str bindable sql_eq st data
               = ({| status := 409; payload := Error "SKU already exists" |}, st)) \/
    (first_by_sku bindable sql_eq st sku = Ok None /\
     ((exists e, create_product Decimal_str bindable sql_eq st data = ({| status := 500; payload := ErrorOf e |}, st)) \/
      (exists name price warehouse_id product_id st',
         data !! "name"%string = Some name /\ data !! "price"%string = Some price /\
         data !! "warehouse_id"%string = Some warehouse_id /\
         try_block Decimal_str bindable sql_eq st name sku price warehouse_id data = Ok (product_id, st') /\
         create_product Decimal_str bindable sql_eq st data
         = ({| status := 201;
               payload := Created "Product created successfully" product_id |}, st')))))).
Proof.
  destruct (decide (Forall (fun field => is_Some (data !! field)) required_fields))
    as [Hall|Hmiss].
  - right. split; [done|].
    destruct (validation_passes data Hall) as (Hfind & name & sku & price & w & Hn & Hs & Hp & Hw).
    exists sku. split; [done|].
    unfold create_product. rewrite Hfind, Hn, Hs, Hp, Hw.
    destruct (first_by_sku bindable sql_eq st sku) as [[p|]|e]; [eauto 10| |eauto 10].
    right. right. split; [done|].
    destruct (try_block _ _ _ _ _ _ _ _ _) as [[pid st']|e] eqn:Ht; [|eauto].
    right. exists name, price, w, pid, st'. auto.
  - left. destruct (validation_fails data Hmiss) as (field & Hf). exists field.
    unfold create_product. rewrite Hf. auto.
Qed.

Lemma create_product_foreign_key (st : storage) (data : gmap string json) :
  foreign_key_ok st -> foreign_key_ok (create_product Decimal_str bindable sql_eq st data).2.
Proof.
  intros Hfk.
  destruct (create_product_cases st data)
    as [(f & -> & _)|(_ & sku & _ & [(e & _ & ->)|[(p & _ & ->)|(_ & [(e & ->)|H])]])];
    try exact Hfk.
  destruct H as (name & price & w & pid & st' & _ & _ & _ & Ht & ->). simpl.
  apply try_block_Ok in Ht as (d & q & _ & _ & Hp & Hi).
  intros i Hin. rewrite Hi in Hin. rewrite Hp.
  apply elem_of_app in Hin as [Hin|Hin].
  - destruct (Hfk i Hin) as (p & Hpin & Hid). exists p. split; [|done].
    apply elem_of_app. by left.
  - apply list_elem_of_singleton in Hin as ->. eexists. split.
    + apply elem_of_app. right. apply list_elem_of_here.
    + reflexivity.
Qed.

(** C7, as amended.  When the request's sku is already in storage, the
    storage is left as it was; the answer is 409 when the request carries all
    of name, sku, price and warehouse_id, and 400 when one of them is
    missing. *)
Theorem C7_duplicate_sku_conflict (st : storage) (data : gmap string json)
        (sku : json) (p : Product.t) :
  data !! "sku"%string = Some sku ->
  p ∈ products st -> is_null sku = false -> bindable sku = true ->
  sql_eq (Product.sku p) sku = true ->
  (create_product Decimal_str bindable sql_eq st data).2 = st /\
  (Forall (fun field => is_Some (data !! field)) required_fields ->
   (create_product Decimal_str bindable sql_eq st data).1
   = {| status := 409; payload := Error "SKU already exists" |}) /\
  (~ Forall (fun field => is_Some (data !! field)) required_fields ->
   status (create_product Decimal_str bindable sql_eq st data).1 = 400).
Proof.
  intros Hsku Hin Hnull Hbind Heq.
  destruct (first_by_sku_found st sku p Hin Hnull Hbind Heq) as (p' & Hfound).
  destruct (create_product_cases st data)
    as [(f & -> & Hmiss)|(Hall & sku' & Hsku' & H)].
  - simpl. split; [done|]. split; [done|]. done.
  - rewrite Hsku in Hsku'. injection Hsku' as <-. rewrite Hfound in H.
    destruct H as [(e & ? & _)|[(p'' & _ & ->)|(? & _)]]; try discriminate.
    simpl. split; [done|]. split; [done|]. done.
Qed.

(** C8.  When the request omits initial_quantity and the answer is 201, the
    four required keys were present, one product row was added, and the
    storage holds exactly one inventory row for the new product, with
    quantity 0.  The storage the request meets respects the foreign key of
    [Inventory.product_id]. *)
Theorem C8_created_product_has_one_inventory_row (st : storage) (data : gmap string json)
        (r : response) (st' : storage) :
  foreign_key_ok st ->
  data !! "initial_quantity"%string = None ->
  create_product Decimal_str bindable sql_eq st data = (r, st') ->
  status r = 201 ->
  Forall (fun field => is_Some (data !! field)) required_fields /\
  exists product_id new_product new_row,
    payload r = Created "Product created successfully" product_id /\
    products st' = products st ++ [new_product] /\
    Product.id new_product = product_id /\
    filter (fun i => Inventory.product_id i = product_id) (inventories st') = [new_row] /\
    Inventory.quantity new_row = JInt 0.
Proof.
  intros Hfk Hq Hc H201.
  destruct (create_product_cases st data)
    as [(f & Hr & _)|(Hall & sku & _ & [(e & _ & Hr)|[(p & _ & Hr)|(_ & [(e & Hr)|H])]])];
    try (rewrite Hr in Hc; injection Hc as <- <-; discriminate H201).
  destruct H as (name & price & w & pid & st1 & _ & _ & _ & Ht & Hr).
  rewrite Hr in Hc. injection Hc as <- <-. split; [done|].
  apply try_block_Ok in Ht as (d & q & Hqv & Hpid & Hp & Hi).
  rewrite Hq in Hqv. simpl in Hqv. subst q.
  do 3 eexists. split; [reflexivity|]. split; [exact Hp|]. split; [reflexivity|].
  rewrite Hi, filter_app.
  assert (Hold : filter (fun i => Inventory.product_id i = pid) (inventories st) = []).
  { destruct (filter _ (inventories st)) as [|i l] eqn:Hf; [done|exfalso].
    assert (Hin : i ∈ filter (fun i => Inventory.product_id i = pid) (inventories st))
      by (rewrite Hf; apply list_elem_of_here).
    apply list_elem_of_filter in Hin as [Hid Hin].
    destruct (Hfk i Hin) as (p & Hpin & Hpid').
    assert (Hlt : Product.id p < next_id (Product.id <$> products st)).
    { apply next_id_gt, list_elem_of_fmap. eauto. }
    lia. }
  rewrite Hold. simpl. rewrite filter_cons_True by done. split; reflexivity.
Qed.

(** C10.  A request body that has the four keys name, sku, price and
    warehouse_id is never answered 400, whatever their values: the answer is
    201, 409 or 500. *)
Theorem C10_validation_is_key_presence_only (st : storage) (data : gmap string json) :
  Forall (fun field => is_Some (data !! field)) required_fields ->
  status (create_product Decimal_str bindable sql_eq st data).1 <> 400 /\
  (status (create_product Decimal_str bindable sql_eq st data).1 = 201 \/
   status (create_product Decimal_str bindable sql_eq st data).1 = 409 \/
   status (create_product Decimal_str bindable sql_eq st data).1 = 500).
Proof.
  intros Hall.
  destruct (create_product_cases st data)
    as [(f & _ & Hmiss)|(_ & sku & _ & [(e & _ & ->)|[(p & _ & ->)|(_ & [(e & ->)|H])]])];
    [done| | | |]; simpl; try (split; [done|auto]).
  destruct H as (name & price & w & pid & st' & _ & _ & _ & _ & ->). simpl.
  split; [done|auto].
Qed.

End Handler.

Lemma foreign_key_ok_empty : foreign_key_ok Samples.empty_storage.
Proof. intros i Hi. by apply elem_of_nil in Hi. Qed.

Lemma foreign_key_ok_one_product : foreign_key_ok Samples.one_product.
Proof.
  intros i Hi. apply list_elem_of_singleton in Hi as ->.
  eexists. split; [apply list_elem_of_here|reflexivity].
Qed.

Lemma C7_duplicate_sku_conflict_witness :
  (Samples.create_product Samples.one_product Samples.widget_again).2 = Samples.one_product /\
  (Forall (fun field => is_Some (Samples.widget_again !! field)) required_fields ->
   (Samples.create_product Samples.one_product Samples.widget_again).1
   = {| status := 409; payload := Error "SKU already exists" |}) /\
  (~ Forall (fun field => is_Some (Samples.widget_again !! field)) required_fields ->
   status (Samples.create_product Samples.one_product Samples.widget_again).1 = 400).
Proof.
  apply (C7_duplicate_sku_conflict Samples.Decimal_str Samples.bindable Samples.sql_eq
           Samples.one_product Samples.widget_again (JString "W-1")
           {| Product.id := 1; Product.name := JString "Widget";
              Product.sku := JString "W-1"; Product.price := DFinite false 5 0 |}).
  - vm_compute. reflexivity.
  - apply list_elem_of_here.
  - reflexivity.
  - reflexivity.
  - vm_compute. reflexivity.
Defined.

(** C7 as stated fails: the store holds the SKU "W-1", the request asks for
    "W-1" again without a name, and the answer is 400, not 409. *)
Lemma C7_counterexample :
  Samples.widget_again_unnamed !! "sku"%string = Some (JString "W-1") /\
  Product.sku <$> products Samples.one_product = [JString "W-1"] /\
  Samples.create_product Samples.one_product Samples.widget_again_unnamed
  = ({| status := 400; payload := Error "name is required" |}, Samples.one_product).
Proof. vm_compute. auto. Qed.

Lemma C8_created_product_has_one_inventory_row_witness :
  Forall (fun field => is_Some (Samples.new_gadget !! field)) required_fields /\
  exists product_id new_product new_row,
    Created "Product created successfully" 2
    = Created "Product created successfully" product_id /\
    products (Samples.create_product Samples.one_product Samples.new_gadget).2
    = products Samples.one_product ++ [new_product] /\
    Product.id new_product = product_id /\
    filter (fun i => Inventory.product_id i = product_id)
           (inventories (Samples.create_product Samples.one_product Samples.new_gadget).2)
    = [new_row] /\
    Inventory.quantity new_row = JInt 0.
Proof.
  apply (C8_created_product_has_one_inventory_row
           Samples.Decimal_str Samples.bindable Samples.sql_eq
           Samples.one_product Samples.new_gadget
           {| status := 201; payload := Created "Product created successfully" 2 |}).
  - exact foreign_key_ok_one_product.
  - vm_compute. reflexivity.
  - vm_compute. reflexivity.
  - reflexivity.
Defined.

Lemma C10_validation_is_key_presence_only_witness :
  status (Samples.create_product Samples.one_product Samples.all_null).1 <> 400 /\
  (status (Samples.create_product Samples.one_product Samples.all_null).1 = 201 \/
   status (Samples.create_product Samples.one_product Samples.all_null).1 = 409 \/
   status (Samples.create_product Samples.one_product Samples.all_null).1 = 500).
Proof.
  apply (C10_validation_is_key_presence_only
           Samples.Decimal_str Samples.bindable Samples.sql_eq
           Samples.one_product Samples.all_null).
  repeat constructor; vm_compute; eauto.
Defined.

End Part1Facts.

(** * Further facts *)

(** ** The rounded division always lands *)

Module PyFloatTotal.
Import PyFloat PyFloatFacts PyFloatAux.

Lemma binary_round_aux_cases (sx : bool) (mx ex : Z) (lx : location) :
  0 <= mx ->
  exists N m, 0 <= N /\ mx / 2 ^ N <= m <= mx / 2 ^ N + 1 /\
              N <= Z.max 0 (Z.max (Zdigits2 mx - 52) (-1074 - ex)) /\
              binary_round_aux prec emax sx mx ex lx = rounded sx m (ex + N).
Proof.
  intros Hmx. unfold binary_round_aux.
  destruct (shr_fexp prec emax mx ex lx) as [mrs1 e1] eqn:H1.
  destruct (shr_fexp prec emax (round_nearest_even (shr_m mrs1) (loc_of_shr_record mrs1)) e1 loc_Exact)
    as [mrs2 e2] eqn:H2.
  unfold shr_fexp in H1, H2. rewrite fexp_eq in H1, H2.
  apply shr_m_shr in H1; [|rewrite shr_m_record_of_loc; lia].
  rewrite shr_m_record_of_loc in H1. destruct H1 as [Hm1 He1].
  set (n1 := Z.max 0 (Z.max (Zdigits2 mx + ex - 53) (-1074) - ex)) in *.
  assert (Hm1pos : 0 <= shr_m mrs1) by (rewrite Hm1; apply Z.div_pos; lia).
  pose proof (round_nearest_even_bounds (shr_m mrs1) (loc_of_shr_record mrs1)) as Hr.
  set (mr := round_nearest_even (shr_m mrs1) (loc_of_shr_record mrs1)) in *.
  apply shr_m_shr in H2; [|simpl; lia]. simpl shr_m in H2. destruct H2 as [Hm2 He2].
  set (n2 := Z.max 0 (Z.max (Zdigits2 mr + e1 - 53) (-1074) - e1)) in *.
  assert (Hn1 : 0 <= n1) by lia. assert (Hn2 : 0 <= n2) by lia.
  exists (n1 + n2), (shr_m mrs2).
  split; [lia|].
  rewrite Z.pow_add_r, <- Z.div_div by lia. rewrite <- Hm1.
  split; [|split].
  - split.
    + rewrite Hm2. apply Z.div_le_mono; lia.
    + rewrite Hm2. etransitivity; [|apply div_succ_le; lia].
      apply Z.div_le_mono; lia.
  - assert (Hd1 : Zdigits2 (shr_m mrs1) <= Z.max 0 (Zdigits2 mx - n1))
      by (rewrite Hm1; apply Zdigits2_div_pow2; lia).
    assert (Hdr : Zdigits2 mr <= Z.max 0 (Zdigits2 mx - n1) + 1).
    { apply Zdigits2_le_of_lt; [lia | lia |].
      pose proof (Zdigits2_upper (shr_m mrs1) Hm1pos) as Hu.
      assert (2 ^ Zdigits2 (shr_m mrs1) <= 2 ^ Z.max 0 (Zdigits2 mx - n1))
        by (apply Z.pow_le_mono_r; lia).
      rewrite Z.pow_add_r by lia. lia. }
    lia.
  - unfold rounded. replace (ex + (n1 + n2)) with e2 by lia. reflexivity.
Qed.

Lemma SFdiv_cases (sx sy : bool) (mx my : positive) (ex ey : Z) :
  exists sh N m, 0 <= sh /\ 0 <= N /\
    (Z.pos mx * 2 ^ sh / Z.pos my) / 2 ^ N <= m <= (Z.pos mx * 2 ^ sh / Z.pos my) / 2 ^ N + 1 /\
    N <= Z.max 0 (Z.max (Zdigits2 (Z.pos mx * 2 ^ sh / Z.pos my) - 52) (-1074 - (ex - ey - sh))) /\
    ex - ey - sh = Z.min (Z.max (Zdigits2 (Z.pos mx) + ex - (Zdigits2 (Z.pos my) + ey) - 53) (-1074)) (ex - ey) /\
    SFdiv prec emax (S754_finite sx mx ex) (S754_finite sy my ey)
    = rounded (xorb sx sy) m (ex - ey - sh + N).
Proof.
  unfold SFdiv.
  destruct (SFdiv_core_binary prec emax (Z.pos mx) ex (Z.pos my) ey) as [[mz ez] lz] eqn:Hc.
  apply SFdiv_core_binary_spec in Hc; [|lia|lia].
  destruct Hc as (sh & Hsh & Hez & -> & Hmin).
  destruct (binary_round_aux_cases (xorb sx sy) (Z.pos mx * 2 ^ sh / Z.pos my) ez lz)
    as (N & m & HN & Hm & HNle & Hr); [apply Z.div_pos; lia|].
  exists sh, N, m. rewrite Hr. rewrite Hez in HNle. subst ez.
  repeat split; try lia. 
Qed.

Lemma int_truediv_30_total (s : Z) :
  1000 <= s < 2 ^ 63 ->
  exists mA eA sh N,
    int_truediv s 30 = Ok (S754_finite false mA eA) /\
    0 <= sh <= 58 /\ 0 <= N /\ eA = N - sh /\ 21 * 2 ^ sh <= Z.pos mA * 2 ^ N.
Proof.
  intros Hs. unfold int_truediv. destruct (decide (30 = 0)) as [|_]; [lia|].
  destruct s as [|ps|ps]; try lia. simpl exact.
  destruct (SFdiv_cases false false ps 30 0 0) as (sh & N & m & Hsh & HN & Hm & HNle & Hmin & ->).
  set (Q := Z.pos ps * 2 ^ sh / 30) in *.
  assert (Hd1 : 1 <= Zdigits2 (Z.pos ps)) by (simpl; lia).
  change (Zdigits2 30) with 5 in Hmin.
  assert (Hsh58 : sh <= 58) by lia.
  assert (HP : 1 <= 2 ^ sh) by (apply (Z.pow_le_mono_r 2 0 sh); lia).
  assert (HK : 1 <= 2 ^ N) by (apply (Z.pow_le_mono_r 2 0 N); lia).
  assert (HX : 1000 * 2 ^ sh <= Z.pos ps * 2 ^ sh) by (apply Z.mul_le_mono_nonneg_r; lia).
  assert (HQ : Z.pos ps * 2 ^ sh < 30 * Z.succ Q) by (apply Z.mul_succ_div_gt; lia).
  assert (HQle : 30 * Q <= Z.pos ps * 2 ^ sh) by (apply Z.mul_div_le; lia).
  assert (HQpos : 0 < Q) by lia.
  assert (HmK : Q < 2 ^ N * Z.succ (Q / 2 ^ N)) by (apply Z.mul_succ_div_gt; lia).
  assert (HdQ : Zdigits2 Q <= 63 + sh).
  { apply Zdigits2_le_of_lt; [lia|lia|]. rewrite Z.pow_add_r by lia.
    assert (Z.pos ps * 2 ^ sh < 2 ^ 63 * 2 ^ sh) by (apply Z.mul_lt_mono_pos_r; lia). lia. }
  assert (HN' : N <= Z.max 0 (Zdigits2 Q - 52)) by lia.
  assert (Hlow : Q - 2 ^ N + 1 <= m * 2 ^ N) by nia.
  assert (Hgoal : 21 * 2 ^ sh <= m * 2 ^ N).
  { destruct (Z.eq_dec N 0) as [->|HNne].
    - change (2 ^ 0) with 1 in *. lia.
    - assert (HKQ : 2 ^ N * 2 ^ 51 <= Q).
      { rewrite <- Z.pow_add_r by lia.
        etransitivity; [|apply Zdigits2_lower; lia].
        apply Z.pow_le_mono_r; lia. }
      lia. }
  destruct m as [|p|p]; [lia| |lia].
  unfold rounded. simpl xorb.
  destruct (Z.leb_spec (0 - 0 - sh + N) 971) as [_|Hbig]; [|lia].
  exists p, (0 - 0 - sh + N), sh, N. repeat split; try lia.
Qed.

Lemma of_int_small_total (q : Z) :
  1 <= q <= 20 ->
  exists mq eq, of_int q = Ok (S754_finite false mq eq) /\ eq <= 0 /\
                Z.pos mq <= 20 * 2 ^ (- eq) /\ Zdigits2 (Z.pos mq) + eq <= 5.
Proof.
  intros Hq. destruct q as [|p|p]; try lia.
  do 5 (try (destruct p as [p|p|]; try lia));
    (do 2 eexists; split; [vm_compute; reflexivity|];
     vm_compute; intuition discriminate).
Qed.

Lemma quotient_below_one_total (mq mA : positive) (eq eA sh N : Z) (sg : bool) :
  eq <= 0 -> Z.pos mq <= 20 * 2 ^ (- eq) -> Zdigits2 (Z.pos mq) + eq <= 5 ->
  0 <= sh <= 58 -> 0 <= N -> eA = N - sh -> 21 * 2 ^ sh <= Z.pos mA * 2 ^ N ->
  to_int (SFdiv prec emax (S754_finite false mq eq) (S754_finite sg mA eA)) = Ok 0.
Proof.
  intros Heq Hq Hdq Hsh HN HeA Havg.
  destruct (SFdiv_cases false sg mq mA eq eA)
    as (sh2 & N2 & m & Hsh2 & HN2 & Hm & HN2le & Hmin & Hr).
  set (Q2 := Z.pos mq * 2 ^ sh2 / Z.pos mA) in *.
  assert (HQ2nn : 0 <= Q2) by (apply Z.div_pos; lia).
  assert (Hmnn : 0 <= m).
  { assert (0 <= Q2 / 2 ^ N2) by (apply Z.div_pos; [lia|apply Z.pow_pos_nonneg; lia]). lia. }
  assert (HdQ2 : Zdigits2 Q2 <= Zdigits2 (Z.pos mq) + sh2).
  { pose proof (Zdigits2_nonneg (Z.pos mq)).
    apply Zdigits2_le_of_lt; [lia|lia|]. rewrite Z.pow_add_r by lia.
    pose proof (Zdigits2_upper (Z.pos mq) ltac:(lia)) as Hup.
    assert (HPsh2 : 0 < 2 ^ sh2) by (apply Z.pow_pos_nonneg; lia).
    assert (Q2 <= Z.pos mq * 2 ^ sh2).
    { apply Z.div_le_upper_bound; [lia|]. nia. }
    assert (Z.pos mq * 2 ^ sh2 < 2 ^ Zdigits2 (Z.pos mq) * 2 ^ sh2)
      by (apply Z.mul_lt_mono_pos_r; lia).
    lia. }
  assert (He3 : eq - eA - sh2 + N2 <= 971) by lia.
  destruct m as [|p|p]; [| |lia].
  - rewrite Hr. reflexivity.
  - unfold rounded in Hr.
    destruct (Z.leb_spec (eq - eA - sh2 + N2) 971) as [_|Hbig]; [|lia].
    pose proof Hr as Hr'.
    apply (SFdiv_below_one mq mA eq eA sh N) in Hr' as [He Hp]; try assumption; try lia.
    rewrite Hr. by apply to_int_below_one.
Qed.

Lemma days_near_total (q s : Z) :
  0 <= q <= 20 -> 0 < s < 1000 ->
  (avg <- int_truediv s 30 ;; x <- of_int q ;; d <- truediv x avg ;; to_int d)
  = Ok (30 * q / s).
Proof.
  intros Hq Hs.
  pose proof days_near_grid as G.
  rewrite forallb_forall in G.
  assert (Hinq : In q (List.map Z.of_nat (List.seq 0 21))).
  { replace q with (Z.of_nat (Z.to_nat q)) by lia. apply in_map, in_seq. lia. }
  apply G in Hinq. rewrite forallb_forall in Hinq.
  assert (Hins : In s (List.map Z.of_nat (List.seq 1 999))).
  { replace s with (Z.of_nat (Z.to_nat s)) by lia. apply in_map, in_seq. lia. }
  apply Hinq in Hins.
  destruct (bind (int_truediv s 30) _) as [days|e]; [|discriminate].
  apply Z.eqb_eq in Hins. by subst.
Qed.

Lemma days_total (q s : Z) :
  0 <= q <= 20 -> 0 < s < 2 ^ 63 ->
  (avg <- int_truediv s 30 ;; x <- of_int q ;; d <- truediv x avg ;; to_int d)
  = Ok (30 * q / s).
Proof.
  intros Hq Hs. destruct (Z_lt_ge_dec s 1000) as [Hlt|Hge].
  - apply days_near_total; lia.
  - rewrite (Z.div_small (30 * q) s) by lia.
    destruct (int_truediv_30_total s) as (mA & eA & sh & N & -> & Hsh & HN & HeA & Hlow); [lia|].
    simpl bind.
    destruct (decide (q = 0)) as [->|Hq0]; [reflexivity|].
    destruct (of_int_small_total q) as (mq & eq & -> & Heq & Hmq & Hdq); [lia|].
    simpl bind. by apply (quotient_below_one_total mq mA eq eA sh N).
Qed.

End PyFloatTotal.

(** ** More on the low-stock alert endpoint *)

Module Part3More.
Import Part3 Samples Part3Facts Part3Aux MoreSamples PyFloatFacts PyFloatAux PyFloatTotal.

Lemma loop_Raise db since rows acc r e :
  r ∈ rows -> loop_body db since r = Raise e ->
  exists e', loop db since rows acc = Raise e'.
Proof.
  revert acc. induction rows as [|r' rows IH]; intros acc Hin Hr.
  - by apply elem_of_nil in Hin.
  - simpl. apply elem_of_cons in Hin as [<-|Hin].
    + rewrite Hr. simpl. eauto.
    + destruct (loop_body db since r') as [[a|]|e0]; simpl; eauto.
Qed.

Lemma loop_all_Ok db since rows acc :
  Forall (fun r => exists o, loop_body db since r = Ok o) rows ->
  loop db since rows acc = Ok (acc ++ omap (emitted db since) rows).
Proof.
  revert acc. induction rows as [|r rows IH]; intros acc H; simpl.
  - by rewrite app_nil_r.
  - apply Forall_cons in H as [[o Ho] H]. unfold emitted at 1. rewrite Ho. simpl.
    destruct o as [a|]; rewrite IH by done; [|done].
    by rewrite <- app_assoc.
Qed.

Lemma fits_int64_true (z : Z) : - 2 ^ 63 <= z < 2 ^ 63 -> fits_int64 z = true.
Proof. intros H. unfold fits_int64. by apply bool_decide_eq_true_2. Qed.

(** A row for which the loop body raises makes the request fail. *)
Lemma low_stock_alerts_Raise db utcnow c :
  Exists (fun r => exists e, loop_body db (thirty_days_ago utcnow) r = Raise e) (results db c) ->
  exists e, low_stock_alerts db utcnow c = InternalServerError e.
Proof.
  intros H. unfold low_stock_alerts, run_query.
  destruct (fits_int64 c); simpl; [|eauto].
  apply Exists_exists in H as (r & Hin & e & He).
  destruct (loop_Raise db (thirty_days_ago utcnow) (results db c) [] r e Hin He) as (e' & ->).
  eauto.
Qed.

(** A bindable company id and a loop body that returns for every row give
    the 200 answer. *)
Lemma low_stock_alerts_all_Ok db utcnow c :
  - 2 ^ 63 <= c < 2 ^ 63 ->
  Forall (fun r => exists o, loop_body db (thirty_days_ago utcnow) r = Ok o) (results db c) ->
  low_stock_alerts db utcnow c
  = Json 200 {| alerts := omap (emitted db (thirty_days_ago utcnow)) (results db c);
                total_alerts := length (omap (emitted db (thirty_days_ago utcnow))
                                             (results db c)) |}.
Proof.
  intros Hc H. unfold low_stock_alerts, run_query. rewrite fits_int64_true by done.
  simpl. by rewrite loop_all_Ok.
Qed.

(** X2.  For a company id that fits in 64 bits the response is all or
    nothing: when the loop body returns for every joined row the answer is
    200 with the alerts of those rows and their count; when it raises for
    one row the answer is a server error and no alert is returned. *)
Theorem response_is_all_or_nothing db utcnow c :
  - 2 ^ 63 <= c < 2 ^ 63 ->
  (Forall (fun r => exists o, loop_body db (thirty_days_ago utcnow) r = Ok o) (results db c) ->
   exists b, low_stock_alerts db utcnow c = Json 200 b /\
             alerts b ≡ₚ omap (emitted db (thirty_days_ago utcnow)) (results db c) /\
             total_alerts b = length (alerts b)) /\
  (Exists (fun r => exists e, loop_body db (thirty_days_ago utcnow) r = Raise e) (results db c) ->
   exists e, low_stock_alerts db utcnow c = InternalServerError e /\
             response_alerts (low_stock_alerts db utcnow c) = []).
Proof.
  intros Hc. split.
  - intros H. eexists. split; [by apply low_stock_alerts_all_Ok|]. by simpl.
  - intros H. destruct (low_stock_alerts_Raise db utcnow c H) as (e & He).
    exists e. by rewrite He.
Qed.

Lemma response_is_all_or_nothing_witness :
  (exists b, low_stock_alerts two_suppliers utcnow 1 = Json 200 b /\
             alerts b ≡ₚ omap (emitted two_suppliers (thirty_days_ago utcnow))
                              (results two_suppliers 1) /\
             total_alerts b = length (alerts b)) /\
  exists e, low_stock_alerts unknown_stock utcnow 1 = InternalServerError e /\
            response_alerts (low_stock_alerts unknown_stock utcnow 1) = [].
Proof.
  split.
  - apply (proj1 (response_is_all_or_nothing two_suppliers utcnow 1 ltac:(lia))).
    repeat constructor; eexists; vm_compute; reflexivity.
  - apply (proj2 (response_is_all_or_nothing unknown_stock utcnow 1 ltac:(lia))).
    apply Exists_cons_hd. eexists. vm_compute. reflexivity.
Defined.

(** X3.  A joined row whose quantity is NULL and whose product sold at the
    warehouse in the window makes the whole request fail with a server
    error: the comparison [inventory.quantity <= threshold] raises. *)
Theorem null_quantity_with_recent_sales_is_500 db utcnow c inv p w s :
  (inv, p, w, s) ∈ results db c ->
  Inventory.quantity inv = None ->
  0 < sales_total db (Product.id p) (Warehouse.id w) (thirty_days_ago utcnow) ->
  exists e, low_stock_alerts db utcnow c = InternalServerError e.
Proof.
  intros Hin Hq Hs.
  apply low_stock_alerts_Raise.
  apply Exists_exists. exists (inv, p, w, s). split; [done|].
  unfold loop_body.
  destruct (sales_query db (Product.id p) (Warehouse.id w) (thirty_days_ago utcnow))
    as [o|e] eqn:Hsq; [|simpl; eauto].
  apply sales_query_Ok in Hsq as [[_ Hz]| ->]; [lia|].
  destruct (sales_total db (Product.id p) (Warehouse.id w) (thirty_days_ago utcnow))
    as [|sl|sl]; try lia. simpl.
  destruct (PyFloat.int_truediv (Z.pos sl) 30) as [avg|e]; simpl; [|eauto].
  rewrite Hq. eauto.
Qed.

Lemma null_quantity_with_recent_sales_is_500_witness :
  exists e, low_stock_alerts unknown_stock utcnow 1 = InternalServerError e.
Proof.
  apply (null_quantity_with_recent_sales_is_500 unknown_stock utcnow 1
           {| Inventory.id := 1; Inventory.product_id := Some 1;
              Inventory.warehouse_id := Some 1; Inventory.quantity := None |}
           widget main_warehouse acme).
  - vm_compute. apply list_elem_of_here.
  - reflexivity.
  - vm_compute. reflexivity.
Defined.

Lemma threshold_for_range (product_type : option string) :
  threshold_for product_type = 10 \/ threshold_for product_type = 20.
Proof.
  destruct product_type as [k|]; [|by right]. unfold threshold_for, THRESHOLDS.
  destruct (decide (k = "simple"%string)) as [->|?]; [right; by rewrite lookup_insert_eq|].
  rewrite lookup_insert_ne by done.
  destruct (decide (k = "bundle"%string)) as [->|?]; [left; by rewrite lookup_insert_eq|].
  right. by rewrite lookup_insert_ne, lookup_empty by done.
Qed.

(** The running sum stays within 64 bits when the absolute values do. *)
Lemma sum_int64_small (acc : Z) (vs : list Z) :
  Z.abs acc + foldr (λ v t, Z.abs v + t) 0 vs < 2 ^ 63 ->
  sum_int64 acc vs = Ok (acc + foldr Z.add 0 vs).
Proof.
  revert acc. induction vs as [|v vs IH]; intros acc H.
  - simpl. f_equal. lia.
  - change (foldr (λ v t, Z.abs v + t) 0 (v :: vs))
      with (Z.abs v + foldr (λ v t, Z.abs v + t) 0 vs) in H.
    change (foldr Z.add 0 (v :: vs)) with (v + foldr Z.add 0 vs).
    assert (0 <= foldr (λ v t, Z.abs v + t) 0 vs) as Hnn.
    { clear. induction vs as [|v vs IH]; simpl; lia. }
    change (sum_int64 acc (v :: vs))
      with (if fits_int64 (acc + v) then sum_int64 (acc + v) vs else Raise OperationalError).
    rewrite fits_int64_true by lia. rewrite IH by lia. f_equal. lia.
Qed.

Lemma abs_sum_le (vs : list Z) :
  Z.abs (foldr Z.add 0 vs) <= foldr (λ v t, Z.abs v + t) 0 vs.
Proof. induction vs as [|v vs IH]; simpl; lia. Qed.

Lemma recent_volume_le db pid wid since :
  foldr (λ v t, Z.abs v + t) 0 (recent_sales db pid wid since) <= ledger_volume db.
Proof.
  unfold recent_sales, ledger_volume.
  induction (movements db) as [|m l IH]; [simpl; lia|].
  rewrite filter_cons.
  change (foldr _ 0 (m :: l))
    with (Z.abs (default 0 (InventoryMovement.quantity_change m))
          + foldr (λ m acc, Z.abs (default 0 (InventoryMovement.quantity_change m)) + acc) 0 l).
  pose proof (Z.abs_nonneg (default 0 (InventoryMovement.quantity_change m))) as Hnn.
  destruct (decide (is_recent_sale pid wid since m = true)); [|lia].
  set (rest := filter (λ m, is_recent_sale pid wid since m = true) l) in *.
  change (omap InventoryMovement.quantity_change (m :: rest))
    with (match InventoryMovement.quantity_change m with
          | Some z => z :: omap InventoryMovement.quantity_change rest
          | None => omap InventoryMovement.quantity_change rest
          end).
  destruct (InventoryMovement.quantity_change m) as [z|].
  - change (foldr (λ v t, Z.abs v + t) 0 (z :: omap InventoryMovement.quantity_change rest))
      with (Z.abs z + foldr (λ v t, Z.abs v + t) 0 (omap InventoryMovement.quantity_change rest)).
    simpl default in *. lia.
  - lia.
Qed.

Lemma sales_total_le_volume db pid wid since :
  sales_total db pid wid since <= ledger_volume db.
Proof.
  unfold sales_total. etransitivity; [apply abs_sum_le|apply recent_volume_le].
Qed.

(** The scalar query returns when the ledger's volume fits in 64 bits. *)
Lemma sales_query_small db pid wid since :
  ledger_volume db < 2 ^ 63 ->
  exists o, sales_query db pid wid since = Ok o.
Proof.
  intros Hvol. unfold sales_query.
  pose proof (recent_volume_le db pid wid since) as Hle.
  destruct (recent_sales db pid wid since) as [|v vs]; [eauto|].
  remember (v :: vs) as l eqn:Hl. clear Hl.
  rewrite sum_int64_small by lia. simpl bind.
  unfold abs_int64. pose proof (abs_sum_le l) as Habs.
  rewrite fits_int64_true by (rewrite Z.add_0_l; lia). simpl. eauto.
Qed.

Lemma sales_query_positive db pid wid since :
  ledger_volume db < 2 ^ 63 ->
  0 < sales_total db pid wid since ->
  sales_query db pid wid since = Ok (Some (sales_total db pid wid since)).
Proof.
  intros Hvol Hpos. destruct (sales_query_small db pid wid since Hvol) as (o & Ho).
  rewrite Ho. apply sales_query_Ok in Ho as [[_ Hz]| ->]; [lia|done].
Qed.

(** A row with a stock between 0 and its threshold whose scalar query
    returns a positive total yields its alert. *)
Lemma loop_body_emits db since inv p w s quantity :
  Inventory.quantity inv = Some quantity ->
  0 <= quantity <= threshold_for (Product.product_type p) ->
  0 < sales_total db (Product.id p) (Warehouse.id w) since ->
  ledger_volume db < 2 ^ 63 ->
  loop_body db since (inv, p, w, s)
  = Ok (Some {| a_product_id := Product.id p; a_product_name := Product.name p;
                a_sku := Product.sku p; a_warehouse_id := Warehouse.id w;
                a_warehouse_name := Warehouse.name w; a_current_stock := quantity;
                a_threshold := threshold_for (Product.product_type p);
                a_days_until_stockout :=
                  exact_days quantity
                    (sales_total db (Product.id p) (Warehouse.id w) since);
                a_supplier := supplier_entry s |}).
Proof.
  intros Hq Hrange Hs Hvol.
  pose proof (threshold_for_range (Product.product_type p)) as Hthr.
  pose proof (sales_total_le_volume db (Product.id p) (Warehouse.id w) since) as Hle.
  unfold loop_body. rewrite sales_query_positive by done.
  destruct (sales_total db (Product.id p) (Warehouse.id w) since) as [|sl|sl]; try lia.
  simpl bind.
  pose proof (PyFloatTotal.days_total quantity (Z.pos sl) ltac:(lia) ltac:(lia)) as Hd.
  apply bind_Ok in Hd as (avg & -> & Hd). simpl bind. rewrite Hq.
  rewrite bool_decide_eq_true_2 by lia.
  apply bind_Ok in Hd as (x & -> & Hd). simpl bind.
  apply bind_Ok in Hd as (d & -> & Hd). simpl bind.
  rewrite Hd. simpl. rewrite exact_days_eq by lia. reflexivity.
Qed.

(** X4.  When the ledger's volume fits in 64 bits, a joined row with a
    stock between 0 and its threshold and a positive sales total always
    yields its alert: no step of the query or of the float computation
    raises, the alert copies the row's fields, and [days_until_stockout]
    is the exact floor. *)
Theorem low_stock_row_emits_its_alert db since inv p w s quantity :
  Inventory.quantity inv = Some quantity ->
  0 <= quantity <= threshold_for (Product.product_type p) ->
  0 < sales_total db (Product.id p) (Warehouse.id w) since ->
  ledger_volume db < 2 ^ 63 ->
  loop_body db since (inv, p, w, s)
  = Ok (Some {| a_product_id := Product.id p; a_product_name := Product.name p;
                a_sku := Product.sku p; a_warehouse_id := Warehouse.id w;
                a_warehouse_name := Warehouse.name w; a_current_stock := quantity;
                a_threshold := threshold_for (Product.product_type p);
                a_days_until_stockout :=
                  exact_days quantity
                    (sales_total db (Product.id p) (Warehouse.id w) since);
                a_supplier := supplier_entry s |}).
Proof. apply loop_body_emits. Qed.

Lemma low_stock_row_emits_its_alert_witness :
  loop_body two_suppliers (thirty_days_ago utcnow)
            (widget_stock 15, widget, main_warehouse, bolt)
  = Ok (Some {| a_product_id := 1; a_product_name := Some "Widget"%string;
                a_sku := Some "W-1"%string; a_warehouse_id := 1;
                a_warehouse_name := Some "Main"%string; a_current_stock := 15;
                a_threshold := threshold_for (Some "simple"%string);
                a_days_until_stockout :=
                  exact_days 15 (sales_total two_suppliers 1 1 (thirty_days_ago utcnow));
                a_supplier := supplier_entry bolt |}).
Proof.
  apply (low_stock_row_emits_its_alert two_suppliers (thirty_days_ago utcnow)
           (widget_stock 15) widget main_warehouse bolt 15).
  - reflexivity.
  - vm_compute. split; discriminate.
  - vm_compute. reflexivity.
  - vm_compute. reflexivity.
Defined.

(** X14.  When the ledger's volume fits in 64 bits, a row whose stock is 0
    and whose product sold at the warehouse in the window yields an alert
    whose [days_until_stockout] is 0. *)
Theorem zero_stock_gives_zero_days db since inv p w s :
  Inventory.quantity inv = Some 0 ->
  0 < sales_total db (Product.id p) (Warehouse.id w) since ->
  ledger_volume db < 2 ^ 63 ->
  exists a, loop_body db since (inv, p, w, s) = Ok (Some a) /\
            a_current_stock a = 0 /\ a_days_until_stockout a = 0.
Proof.
  intros Hq Hs Hvol. eexists. split.
  - apply (loop_body_emits db since inv p w s 0); [done| |done|done].
    destruct (threshold_for_range (Product.product_type p)); lia.
  - simpl. split; [done|]. rewrite exact_days_eq by lia. reflexivity.
Qed.

Lemma zero_stock_gives_zero_days_witness :
  exists a, loop_body (shop 0 [link 1] [sale (-60)]) (thirty_days_ago utcnow)
                      (widget_stock 0, widget, main_warehouse, acme) = Ok (Some a) /\
            a_current_stock a = 0 /\ a_days_until_stockout a = 0.
Proof.
  apply (zero_stock_gives_zero_days (shop 0 [link 1] [sale (-60)]) (thirty_days_ago utcnow)
           (widget_stock 0) widget main_warehouse acme).
  - reflexivity.
  - vm_compute. reflexivity.
  - vm_compute. reflexivity.
Defined.

(** The loop body returns for every row whose quantity is present and not
    negative, when the ledger's volume fits in 64 bits. *)
Lemma loop_body_total db since inv p w s q :
  Inventory.quantity inv = Some q -> 0 <= q ->
  ledger_volume db < 2 ^ 63 ->
  exists o, loop_body db since (inv, p, w, s) = Ok o.
Proof.
  intros Hq Hq0 Hvol.
  pose proof (sales_total_le_volume db (Product.id p) (Warehouse.id w) since) as Hle.
  pose proof (sales_total_nonneg db (Product.id p) (Warehouse.id w) since) as Hnn.
  destruct (decide (0 < sales_total db (Product.id p) (Warehouse.id w) since)) as [Hpos|Hzero].
  - destruct (decide (q <= threshold_for (Product.product_type p))) as [Hlow|Hhigh].
    + eexists. apply (loop_body_emits db _ inv p w s q); [done|lia|done|done].
    + exists None. unfold loop_body. rewrite sales_query_positive by done.
      destruct (sales_total db (Product.id p) (Warehouse.id w) since) as [|sl|sl]; try lia.
      simpl bind.
      pose proof (PyFloatTotal.days_total 0 (Z.pos sl) ltac:(lia) ltac:(lia)) as Hd.
      apply bind_Ok in Hd as (avg & -> & _). simpl bind. rewrite Hq.
      by rewrite bool_decide_eq_false_2 by lia.
  - exists None. unfold loop_body.
    destruct (sales_query_small db (Product.id p) (Warehouse.id w) since Hvol) as (o & Ho).
    rewrite Ho. apply sales_query_Ok in Ho as [[-> _]| ->]; [done|].
    replace (sales_total db (Product.id p) (Warehouse.id w) since) with 0 by lia.
    reflexivity.
Qed.

(** X5.  When every inventory quantity is present and not negative and the
    ledger's total volume fits in 64 bits, the endpoint answers 200 for every
    company id that fits in 64 bits. *)
Theorem no_server_error_on_well_formed_data db utcnow c :
  Forall (fun inv => exists q, Inventory.quantity inv = Some q /\ 0 <= q) (inventory db) ->
  ledger_volume db < 2 ^ 63 ->
  - 2 ^ 63 <= c < 2 ^ 63 ->
  exists b, low_stock_alerts db utcnow c = Json 200 b /\
            alerts b ≡ₚ omap (emitted db (thirty_days_ago utcnow)) (results db c) /\
            total_alerts b = length (alerts b).
Proof.
  intros Hinv Hvol Hc.
  rewrite (low_stock_alerts_all_Ok db utcnow c Hc); [eexists; split; [reflexivity|by simpl]|].
  apply Forall_forall. intros [[[inv p] w] s] Hin.
  apply elem_of_results in Hin as (Hinv' & _).
  rewrite Forall_forall in Hinv. destruct (Hinv inv Hinv') as (q & Hq & Hq0).
  by apply (loop_body_total db _ inv p w s q).
Qed.

Lemma no_server_error_on_well_formed_data_witness :
  exists b, low_stock_alerts mixed utcnow 1 = Json 200 b /\
            alerts b ≡ₚ omap (emitted mixed (thirty_days_ago utcnow)) (results mixed 1) /\
            total_alerts b = length (alerts b).
Proof.
  apply (no_server_error_on_well_formed_data mixed utcnow 1).
  - apply List.Forall_cons; [exists 15; split; [reflexivity|lia]|].
    apply List.Forall_cons; [exists 5; split; [reflexivity|lia]|].
    apply List.Forall_nil.
  - vm_compute. reflexivity.
  - lia.
Defined.

Lemma recent_sales_add_movement db m pid wid since :
  is_recent_sale pid wid since m = false ->
  recent_sales (add_movement m db) pid wid since = recent_sales db pid wid since.
Proof.
  intros H. unfold recent_sales, add_movement. simpl movements.
  rewrite filter_app, filter_cons_False, filter_nil, app_nil_r by congruence.
  reflexivity.
Qed.

Lemma sales_query_add_movement db m pid wid since :
  is_recent_sale pid wid since m = false ->
  sales_query (add_movement m db) pid wid since = sales_query db pid wid since.
Proof. intros H. unfold sales_query. by rewrite recent_sales_add_movement. Qed.

Lemma loop_body_add_movement db m since inv p w s :
  is_recent_sale (Product.id p) (Warehouse.id w) since m = false ->
  loop_body (add_movement m db) since (inv, p, w, s) = loop_body db since (inv, p, w, s).
Proof. intros H. unfold loop_body. by rewrite sales_query_add_movement. Qed.

Lemma loop_ext db db' since rows acc :
  (forall r, loop_body db' since r = loop_body db since r) ->
  loop db' since rows acc = loop db since rows acc.
Proof.
  intros H. revert acc. induction rows as [|r rows IH]; intros acc; simpl; [done|].
  rewrite H. destruct (loop_body db since r) as [[a|]|e]; simpl; auto.
Qed.

(** X6.  Appending a movement that is not a sale stamped within the trailing
    30 days (a restock, an older sale, a sale without a timestamp) leaves the
    response as it was. *)
Theorem movements_outside_the_window_do_not_matter db utcnow c m :
  (forall t, InventoryMovement.reason m = Some "sale"%string ->
             InventoryMovement.created_at m = Some t -> t < thirty_days_ago utcnow) ->
  low_stock_alerts (add_movement m db) utcnow c = low_stock_alerts db utcnow c.
Proof.
  intros Hm. unfold low_stock_alerts, run_query.
  change (results (add_movement m db) c) with (results db c).
  destruct (fits_int64 c); [simpl|done].
  rewrite (loop_ext db (add_movement m db)); [done|].
  intros [[[inv p] w] s]. apply loop_body_add_movement.
  unfold is_recent_sale, at_or_after.
  destruct (bool_decide (InventoryMovement.reason m = Some "sale"%string)) eqn:Hr;
    [|by rewrite !andb_false_r].
  apply bool_decide_eq_true in Hr.
  destruct (InventoryMovement.created_at m) as [t|]; [|by rewrite !andb_false_r].
  specialize (Hm t Hr eq_refl).
  rewrite (bool_decide_eq_false_2 (thirty_days_ago utcnow <= t)) by lia.
  by rewrite !andb_false_r.
Qed.

Lemma movements_outside_the_window_do_not_matter_witness :
  low_stock_alerts (add_movement restock two_suppliers) utcnow 1
  = low_stock_alerts two_suppliers utcnow 1.
Proof.
  apply (movements_outside_the_window_do_not_matter two_suppliers utcnow 1 restock).
  intros t Hr. discriminate Hr.
Defined.

(** X7.  Warehouses are evaluated independently: a movement booked for
    another product or another warehouse does not change what the loop body
    does for a row. *)
Theorem sales_elsewhere_do_not_matter db since m inv p w s :
  InventoryMovement.product_id m <> Some (Product.id p) \/
  InventoryMovement.warehouse_id m <> Some (Warehouse.id w) ->
  loop_body (add_movement m db) since (inv, p, w, s) = loop_body db since (inv, p, w, s).
Proof.
  intros H. apply loop_body_add_movement. unfold is_recent_sale.
  destruct H as [H|H]; rewrite (bool_decide_eq_false_2 _ H); [done|].
  by rewrite andb_false_r.
Qed.

Lemma sales_elsewhere_do_not_matter_witness :
  loop_body (add_movement sale_elsewhere two_suppliers) (thirty_days_ago utcnow)
            (widget_stock 15, widget, main_warehouse, acme)
  = loop_body two_suppliers (thirty_days_ago utcnow)
              (widget_stock 15, widget, main_warehouse, acme).
Proof.
  apply (sales_elsewhere_do_not_matter two_suppliers (thirty_days_ago utcnow) sale_elsewhere
           (widget_stock 15) widget main_warehouse acme).
  right. discriminate.
Defined.

(** X1.  Every alert of a response is built from stored rows: an inventory
    row of the alert's product at the alert's warehouse, a warehouse of the
    requested company, and a supplier linked to the product; the names, the
    SKU and the stock are those rows' values. *)
Theorem alerts_are_built_from_rows_of_the_company db utcnow c :
  Forall (fun a =>
    exists inv p w s ps,
      inv ∈ inventory db /\ p ∈ products db /\ w ∈ warehouses db /\
      s ∈ suppliers db /\ ps ∈ product_suppliers db /\
      Warehouse.company_id w = Some c /\
      Inventory.product_id inv = Some (Product.id p) /\
      Inventory.warehouse_id inv = Some (Warehouse.id w) /\
      ProductSupplier.product_id ps = Product.id p /\
      ProductSupplier.supplier_id ps = Supplier.id s /\
      Inventory.quantity inv = Some (a_current_stock a) /\
      a_product_id a = Product.id p /\ a_product_name a = Product.name p /\
      a_sku a = Product.sku p /\
      a_warehouse_id a = Warehouse.id w /\ a_warehouse_name a = Warehouse.name w /\
      a_supplier a = supplier_entry s)
    (response_alerts (low_stock_alerts db utcnow c)).
Proof.
  destruct (low_stock_alerts db utcnow c) as [st b|e] eqn:H; [|constructor].
  simpl. apply Forall_forall. intros a Ha.
  destruct (alert_origin _ _ _ _ _ _ H Ha) as ([[[inv p] w] s] & Hin & Hb).
  apply elem_of_results in Hin as (? & ? & ? & ? & ? & ? & ? & ps & ? & ? & ?).
  apply loop_body_Some in Hb as (sl & q & avg & x & d & days & _ & _ & _ & Hq & _ & _ & _ & _ & ->).
  exists inv, p, w, s, ps. simpl. repeat split; auto.
Qed.

Lemma of_int_negative (p : positive) (x : spec_float) :
  PyFloat.of_int (Z.neg p) = Ok x ->
  x = S754_zero true \/ exists m e, x = S754_finite true m e.
Proof.
  unfold PyFloat.of_int, binary_normalize, binary_round.
  destruct (shl_align p 0 _) as [mz ez].
  destruct (binary_round_aux_cases true (Z.pos mz) ez loc_Exact) as (N & m & HN & Hm & _ & ->);
    [lia|].
  assert (0 <= Z.pos mz / 2 ^ N) by (apply Z.div_pos; [lia|apply Z.pow_pos_nonneg; lia]).
  destruct m as [|q|q]; [| |lia]; unfold rounded.
  - intros [= <-]. by left.
  - destruct (_ <=? _); [|discriminate]. intros [= <-]. right. eauto.
Qed.

Lemma int_truediv_positive (s : positive) (avg : spec_float) :
  PyFloat.int_truediv (Z.pos s) 30 = Ok avg ->
  avg = S754_zero false \/ exists m e, avg = S754_finite false m e.
Proof.
  unfold PyFloat.int_truediv. destruct (decide (30 = 0)) as [|_]; [lia|]. simpl PyFloat.exact.
  destruct (SFdiv_cases false false s 30 0 0) as (sh & N & m & Hsh & HN & Hm & _ & _ & ->).
  assert (0 <= Z.pos s * 2 ^ sh / 30 / 2 ^ N).
  { assert (0 < 2 ^ sh) by (apply Z.pow_pos_nonneg; lia).
    apply Z.div_pos; [apply Z.div_pos; lia|apply Z.pow_pos_nonneg; lia]. }
  destruct m as [|q|q]; [| |lia]; unfold rounded; simpl xorb.
  - intros [= <-]. by left.
  - destruct (_ <=? _); [|discriminate]. intros [= <-]. right. eauto.
Qed.

(** X8.  An alert for a negative stock never carries a positive
    [days_until_stockout]. *)
Theorem negative_stock_never_gives_positive_days db utcnow c st b a :
  low_stock_alerts db utcnow c = Json st b ->
  a ∈ alerts b ->
  a_current_stock a < 0 ->
  a_days_until_stockout a <= 0.
Proof.
  intros H Ha Hneg.
  destruct (alert_origin _ _ _ _ _ _ H Ha) as ([[[inv p] w] s] & _ & Hb).
  apply loop_body_Some in Hb
    as (sl & q & avg & x & d & days & _ & Hpos & Havg & _ & _ & Hx & Hd & Hdays & ->).
  simpl in *. destruct q as [|q|q]; try lia. destruct sl as [|sl|sl]; try lia.
  apply int_truediv_positive in Havg as [->|(mA & eA & ->)]; [discriminate|].
  injection Hd as <-.
  apply of_int_negative in Hx as [->|(mq & eq & ->)].
  - injection Hdays as <-. lia.
  - destruct (SFdiv_cases true false mq mA eq eA) as (sh & N & m & Hsh & HN & Hm & _ & _ & Hr).
    rewrite Hr in Hdays. simpl xorb in Hdays. unfold rounded in Hdays.
    destruct m as [|r|r]; [injection Hdays as <-; lia| |discriminate].
    destruct (_ <=? _); [|discriminate]. unfold PyFloat.to_int in Hdays.
    injection Hdays as <-.
    destruct (decide (0 <= eq - eA - sh + N)).
    + assert (0 <= 2 ^ (eq - eA - sh + N)) by (apply Z.pow_nonneg; lia). nia.
    + assert (0 <= Z.pos r / 2 ^ (- (eq - eA - sh + N)))
        by (apply Z.div_pos; [lia|apply Z.pow_pos_nonneg; lia]).
      lia.
Qed.

Lemma negative_stock_never_gives_positive_days_witness :
  a_days_until_stockout
    {| a_product_id := 1; a_product_name := Some "Widget"%string;
       a_sku := Some "W-1"%string; a_warehouse_id := 1;
       a_warehouse_name := Some "Main"%string; a_current_stock := -4;
       a_threshold := 20; a_days_until_stockout := -2;
       a_supplier := supplier_entry acme |} <= 0.
Proof.
  apply (negative_stock_never_gives_positive_days (shop (-4) [link 1] [sale (-60)]) utcnow 1 200
           {| alerts := [{| a_product_id := 1; a_product_name := Some "Widget"%string;
                            a_sku := Some "W-1"%string; a_warehouse_id := 1;
                            a_warehouse_name := Some "Main"%string; a_current_stock := -4;
                            a_threshold := 20; a_days_until_stockout := -2;
                            a_supplier := supplier_entry acme |}];
              total_alerts := 1 |}).
  - vm_compute. reflexivity.
  - apply list_elem_of_here.
  - simpl. lia.
Defined.

End Part3More.

(** ** More on the product-creation endpoint *)

Module Part1More.
Import Part1 Part1Facts Part1Aux.


Section Handler.
Context (Decimal_str : json -> option decimal)
        (bindable : json -> bool)
        (sql_eq : json -> json -> bool).


Lemma try_block_Ok_inv st name sku price warehouse_id data product_id st' :
  try_block Decimal_str bindable sql_eq st name sku price warehouse_id data
  = Ok (product_id, st') ->
  exists d,
    Decimal_str price = Some d /\
    is_null name = false /\ is_null sku = false /\ is_null warehouse_id = false /\
    bindable sku = true /\
    Forall (fun p => sql_eq (Product.sku p) sku = false) (products st) /\
    product_id = next_id (Product.id <$> products st) /\
    st' = {| products := products st ++
               [{| Product.id := product_id; Product.name := name;
                   Product.sku := sku; Product.price := d |}];
             inventories := inventories st ++
               [{| Inventory.id := next_id (Inventory.id <$> inventories st);
                   Inventory.product_id := product_id;
                   Inventory.warehouse_id := warehouse_id;
                   Inventory.quantity := stored_quantity data |}] |}.
Proof.
  unfold try_block. intros H.
  apply bind_Ok in H as (d & Hd & H).
  apply bind_Ok in H as ([id st1] & Hf & H).
  apply bind_Ok in H as (st2 & Hc & H). injection H as <- <-.
  destruct (Decimal_str price) as [d'|]; [|discriminate]. injection Hd as ->.
  unfold flush_product, accepts in Hf.
  destruct (is_null name) eqn:Hn; [by destruct (negb _)|].
  destruct (is_null sku) eqn:Hs; [by destruct (negb _)|].
  simpl in Hf. destruct (bindable name); [|discriminate].
  destruct (bindable sku) eqn:Hb; [|discriminate]. simpl in Hf.
  destruct (price_is_null d); [discriminate|].
  destruct (existsb _ _) eqn:Hex; [discriminate|]. injection Hf as <- <-.
  unfold commit_inventory in Hc. simpl in Hc.
  destruct (negb _); [discriminate|].
  destruct (is_null warehouse_id) eqn:Hw; [discriminate|].
  injection Hc as <-. exists d. repeat split; try done.
  - apply Forall_forall. intros p Hp.
    destruct (sql_eq (Product.sku p) sku) eqn:He; [|done].
    assert (existsb (fun p => sql_eq (Product.sku p) sku) (products st) = true).
    { apply existsb_exists. exists p. split; [by apply list_elem_of_In|done]. }
    congruence.
  - unfold stored_quantity. by destruct (data !! "initial_quantity"%string).
Qed.

(** The two outcomes of a request. *)
Lemma create_product_outcome (st : storage) (data : gmap string json) :
  (status (create_product Decimal_str bindable sql_eq st data).1 <> 201 /\
   (create_product Decimal_str bindable sql_eq st data).2 = st) \/
  (exists name sku price warehouse_id d,
     data !! "name"%string = Some name /\ data !! "sku"%string = Some sku /\
     data !! "price"%string = Some price /\
     data !! "warehouse_id"%string = Some warehouse_id /\
     Decimal_str price = Some d /\
     create_product Decimal_str bindable sql_eq st data
     = ({| status := 201;
           payload := Created "Product created successfully"
                              (next_id (Product.id <$> products st)) |},
        {| products := products st ++
             [{| Product.id := next_id (Product.id <$> products st);
                 Product.name := name; Product.sku := sku; Product.price := d |}];
           inventories := inventories st ++
             [{| Inventory.id := next_id (Inventory.id <$> inventories st);
                 Inventory.product_id := next_id (Product.id <$> products st);
                 Inventory.warehouse_id := warehouse_id;
                 Inventory.quantity := stored_quantity data |}] |})).
Proof.
  destruct (create_product_cases Decimal_str bindable sql_eq st data)
    as [(f & -> & _)|(_ & sku & Hsku & [(e & _ & ->)|[(p & _ & ->)|(_ & [(e & ->)|H])]])];
    try (left; by split).
  right. destruct H as (name & price & w & pid & st' & Hn & Hp & Hw & Ht & ->).
  apply try_block_Ok_inv in Ht as (d & Hd & _ & _ & _ & _ & _ & -> & ->).
  exists name, sku, price, w, d. by repeat split.
Qed.


Lemma create_product_consistent (st : storage) (data : gmap string json) :
  consistent st -> consistent (create_product Decimal_str bindable sql_eq st data).2.
Proof.
  intros (Hnd & Hfk & Hone).
  destruct (create_product_outcome st data) as [[_ ->]|H]; [done|].
  destruct H as (name & sku & price & w & d & _ & _ & _ & _ & _ & ->). simpl.
  set (pid := next_id (Product.id <$> products st)).
  assert (Hfresh : forall p, p ∈ products st -> Product.id p < pid).
  { intros p Hp. apply next_id_gt, list_elem_of_fmap. eauto. }
  assert (Hold : rows_of st pid = []).
  { unfold rows_of. destruct (filter _ (inventories st)) as [|i l] eqn:Hf; [done|exfalso].
    assert (Hin : i ∈ filter (fun i => Inventory.product_id i = pid) (inventories st))
      by (rewrite Hf; apply list_elem_of_here).
    apply list_elem_of_filter in Hin as [Hid Hin].
    destruct (Hfk i Hin) as (p & Hpin & Hpid). specialize (Hfresh p Hpin). lia. }
  split; [|split].
  - simpl. rewrite fmap_app. apply NoDup_app. split; [done|]. split; [|apply NoDup_singleton].
    intros x Hx Hx'. apply list_elem_of_singleton in Hx'. subst x.
    apply list_elem_of_fmap in Hx as (p & Hp & Hin). specialize (Hfresh p Hin). simpl in *. lia.
  - intros i Hi. simpl in *. apply elem_of_app in Hi as [Hi|Hi].
    + destruct (Hfk i Hi) as (p & Hp & Hid). exists p. split; [|done].
      apply elem_of_app. by left.
    + apply list_elem_of_singleton in Hi as ->. eexists. split.
      * apply elem_of_app. right. apply list_elem_of_here.
      * reflexivity.
  - simpl. apply Forall_app. split.
    + apply Forall_forall. intros p Hp. rewrite Forall_forall in Hone.
      specialize (Hone p Hp). specialize (Hfresh p Hp).
      unfold rows_of in *. simpl. rewrite filter_app, filter_cons_False by (simpl; lia).
      by rewrite filter_nil, app_nil_r.
    + apply Forall_singleton. unfold rows_of in *. simpl.
      rewrite filter_app, Hold, filter_cons_True by done. reflexivity.
Qed.

Lemma serve_consistent (st : storage) (requests : list (gmap string json)) :
  consistent st -> consistent (serve Decimal_str bindable sql_eq st requests).
Proof.
  revert st. induction requests as [|data requests IH]; intros st H; simpl; [done|].
  by apply IH, create_product_consistent.
Qed.

(** X11.  Starting from a new database, after any sequence of requests the
    product keys are distinct, every inventory row points at a stored
    product, and every product has exactly one inventory row. *)
Theorem every_request_sequence_keeps_the_storage_consistent
        (requests : list (gmap string json)) :
  consistent (serve Decimal_str bindable sql_eq empty requests).
Proof.
  apply serve_consistent. split; [apply NoDup_nil_2|]. split; [|constructor].
  intros i Hi. by apply elem_of_nil in Hi.
Qed.

Lemma create_product_distinct_skus (st : storage) (data : gmap string json) :
  distinct_skus sql_eq st ->
  distinct_skus sql_eq (create_product Decimal_str bindable sql_eq st data).2.
Proof.
  intros Hd.
  destruct (create_product_cases Decimal_str bindable sql_eq st data)
    as [(f & -> & _)|(_ & sku & _ & [(e & _ & ->)|[(p & _ & ->)|(_ & [(e & ->)|H])]])];
    try exact Hd.
  destruct H as (name & price & w & pid & st' & _ & _ & _ & Ht & ->). simpl.
  apply try_block_Ok_inv in Ht as (d & _ & _ & _ & _ & _ & Hnew & _ & ->).
  intros i j p q Hij Hp Hq. simpl in Hp, Hq.
  destruct (decide (j < length (products st))%nat) as [Hj|Hj].
  - rewrite lookup_app_l in Hp, Hq by lia. by apply (Hd i j).
  - rewrite (lookup_app_r _ _ j) in Hq by lia.
    destruct (j - length (products st))%nat as [|k] eqn:Hk; [|done].
    injection Hq as <-. simpl.
    rewrite lookup_app_l in Hp by lia.
    rewrite Forall_forall in Hnew. apply Hnew. by eapply list_elem_of_lookup_2.
Qed.

(** X15.  Starting from a new database, after any sequence of requests no
    stored SKU compares equal to a SKU stored before it. *)
Theorem every_request_sequence_keeps_skus_distinct
        (requests : list (gmap string json)) :
  distinct_skus sql_eq (serve Decimal_str bindable sql_eq empty requests).
Proof.
  assert (H : forall st, distinct_skus sql_eq st ->
                         distinct_skus sql_eq (serve Decimal_str bindable sql_eq st requests)).
  { induction requests as [|data requests IH]; intros st Hst; simpl; [done|].
    by apply IH, create_product_distinct_skus. }
  apply H. intros i j p q _ Hp. simpl in Hp. by rewrite lookup_nil in Hp.
Qed.

Lemma create_product_keeps_products (st : storage) (data : gmap string json) p :
  p ∈ products st -> p ∈ products (create_product Decimal_str bindable sql_eq st data).2.
Proof.
  intros Hp.
  destruct (create_product_outcome st data) as [[_ ->]|H]; [done|].
  destruct H as (name & sku & price & w & d & _ & _ & _ & _ & _ & ->). simpl.
  apply elem_of_app. by left.
Qed.

Lemma serve_keeps_products (st : storage) (requests : list (gmap string json)) p :
  p ∈ products st -> p ∈ products (serve Decimal_str bindable sql_eq st requests).
Proof.
  revert st. induction requests as [|data requests IH]; intros st Hp; simpl; [done|].
  by apply IH, create_product_keeps_products.
Qed.

(** X12.  After a request was answered 201, a later complete request with
    the same sku is answered 409 and changes nothing, whatever requests were
    served in between (for a sku the database compares equal to itself). *)
Theorem created_sku_is_then_refused (st : storage) (data data' : gmap string json)
        (between : list (gmap string json)) (sku : json) :
  status (create_product Decimal_str bindable sql_eq st data).1 = 201 ->
  data !! "sku"%string = Some sku ->
  sql_eq sku sku = true ->
  Forall (fun field => is_Some (data' !! field)) required_fields ->
  data' !! "sku"%string = Some sku ->
  create_product Decimal_str bindable sql_eq
    (serve Decimal_str bindable sql_eq
       (create_product Decimal_str bindable sql_eq st data).2 between) data'
  = ({| status := 409; payload := Error "SKU already exists" |},
     serve Decimal_str bindable sql_eq
       (create_product Decimal_str bindable sql_eq st data).2 between).
Proof.
  intros H201 Hsku Hrefl Hall Hsku'.
  destruct (create_product_cases Decimal_str bindable sql_eq st data)
    as [(f & Hr & _)|(_ & sku0 & Hsku0 & [(e & _ & Hr)|[(p & _ & Hr)|(_ & [(e & Hr)|H])]])];
    try (rewrite Hr in H201; discriminate H201).
  destruct H as (name & price & w & pid & st' & _ & _ & _ & Ht & Hr).
  rewrite Hsku in Hsku0. injection Hsku0 as <-.
  rewrite Hr. simpl.
  apply try_block_Ok_inv in Ht as (d & _ & _ & Hnull & _ & Hbind & _ & _ & ->).
  set (st' := {| products := _; inventories := _ |}).
  set (st'' := serve Decimal_str bindable sql_eq st' between).
  destruct (first_by_sku_found bindable sql_eq st'' sku
              {| Product.id := pid; Product.name := name;
                 Product.sku := sku; Product.price := d |}) as (p' & Hfound);
    [apply serve_keeps_products, elem_of_app; right; apply list_elem_of_here
    |done|done|done|].
  destruct (create_product_cases Decimal_str bindable sql_eq st'' data')
    as [(f & _ & Hmiss)|(_ & sku1 & Hsku1 & H)]; [done|].
  rewrite Hsku' in Hsku1. injection Hsku1 as <-. rewrite Hfound in H.
  destruct H as [(e & ? & _)|[(p'' & _ & ->)|(? & _)]]; try discriminate. reflexivity.
Qed.

(** X13.  A request whose required keys are all present but whose name, sku
    or warehouse_id is null is never answered 201: the answer is 409 or 500
    and the storage is left as it was. *)
Theorem null_values_never_create (st : storage) (data : gmap string json) :
  Forall (fun field => is_Some (data !! field)) required_fields ->
  data !! "name"%string = Some JNull \/ data !! "sku"%string = Some JNull \/
  data !! "warehouse_id"%string = Some JNull ->
  (status (create_product Decimal_str bindable sql_eq st data).1 = 409 \/
   status (create_product Decimal_str bindable sql_eq st data).1 = 500) /\
  (create_product Decimal_str bindable sql_eq st data).2 = st.
Proof.
  intros Hall Hnull.
  destruct (create_product_cases Decimal_str bindable sql_eq st data)
    as [(f & _ & Hmiss)|(_ & sku & Hsku & [(e & _ & ->)|[(p & _ & ->)|(_ & [(e & ->)|H])]])];
    [done| | | |]; simpl; auto.
  exfalso. destruct H as (name & price & w & pid & st' & Hn & Hp & Hw & Ht & _).
  apply try_block_Ok_inv in Ht as (d & _ & Hnn & Hns & Hnw & _).
  destruct Hnull as [H|[H|H]]; [rewrite Hn in H|rewrite Hsku in H|rewrite Hw in H];
    injection H as ->; discriminate.
Qed.

End Handler.


Lemma created_sku_is_then_refused_witness :
  Samples.create_product
    (serve Samples.Decimal_str Samples.bindable Samples.sql_eq
       (Samples.create_product Samples.one_product Samples.new_gadget).2
       [MoreSamples.new_gizmo; Samples.widget_again])
    Samples.new_gadget
  = ({| status := 409; payload := Error "SKU already exists" |},
     serve Samples.Decimal_str Samples.bindable Samples.sql_eq
       (Samples.create_product Samples.one_product Samples.new_gadget).2
       [MoreSamples.new_gizmo; Samples.widget_again]).
Proof.
  apply (created_sku_is_then_refused Samples.Decimal_str Samples.bindable Samples.sql_eq
           Samples.one_product Samples.new_gadget Samples.new_gadget
           [MoreSamples.new_gizmo; Samples.widget_again] (JString "G-2")).
  - vm_compute. reflexivity.
  - vm_compute. reflexivity.
  - vm_compute. reflexivity.
  - repeat constructor; vm_compute; eauto.
  - vm_compute. reflexivity.
Defined.

Lemma null_values_never_create_witness :
  (status (Samples.create_product Samples.one_product Samples.all_null).1 = 409 \/
   status (Samples.create_product Samples.one_product Samples.all_null).1 = 500) /\
  (Samples.create_product Samples.one_product Samples.all_null).2 = Samples.one_product.
Proof.
  apply (null_values_never_create Samples.Decimal_str Samples.bindable Samples.sql_eq
           Samples.one_product Samples.all_null).
  - repeat constructor; vm_compute; eauto.
  - left. vm_compute. reflexivity.
Defined.

End Part1More.
